(** * vscode-chromium-test: command construction of [ChromiumTestManager]

    A shallow embedding of [src/extension.ts] and of the three earlier
    revisions of that file kept next to it, together with the part of
    Node's [path] module (POSIX flavour, separator ["/"]) and of the
    editor host that the embedded functions call.

    Layout:
    - [JS]      string and array primitives of the language;
    - [Path]    Node's [path.posix]: [extname], [normalize], [join],
                [resolve], [relative];
    - the manager, the host state, and the state-and-exception monad the
      methods run in;
    - the functions of [src/extension.ts];
    - [Rev0], [Rev1], [Rev2]: the revisions [part_000], [part_001],
      [part_002];
    - the workbench (clipboard, status bar, terminals, workspace,
      configuration), [Extension] for the editor side of
      [src/extension.ts], and [Rev0Editor], [Rev1Editor], [Rev2Editor]
      for that of the revisions;
    - [PathFacts]: what the proofs need of the [path] model;
    - the runs of the methods and the properties C1 to C10;
    - [PathBelow] and the properties of the registered commands. *)

From Stdlib Require Import String Ascii List Bool ZArith Lia.
Import ListNotations.

Local Open Scope list_scope.
Local Open Scope string_scope.

(* ------------------------------------------------------------------ *)
(** * Language primitives *)

Module JS.

(** [s.charCodeAt(i)]; [None] stands for [NaN] (index out of range). *)
Definition charCodeAt (s : string) (i : Z) : option ascii :=
  if (i <? 0)%Z then None else String.get (Z.to_nat i) s.

(** Drop the first [n] characters. *)
Fixpoint drop (n : nat) (s : string) : string :=
  match n, s with
  | O, _ => s
  | S _, EmptyString => EmptyString
  | S n', String _ s' => drop n' s'
  end.

(** Keep the first [n] characters. *)
Fixpoint take (n : nat) (s : string) : string :=
  match n, s with
  | O, _ => EmptyString
  | S _, EmptyString => EmptyString
  | S n', String c s' => String c (take n' s')
  end.

(** The index clamping of [String.prototype.slice]. *)
Definition clamp (len i : Z) : Z :=
  if (i <? 0)%Z then Z.max (len + i) 0 else Z.min i len.

(** [s.slice(start, end)]. *)
Definition slice (s : string) (start end_ : Z) : string :=
  let len := Z.of_nat (String.length s) in
  let from := clamp len start in
  let to := clamp len end_ in
  take (Z.to_nat (to - from)) (drop (Z.to_nat from) s).

(** [s.slice(start)]. *)
Definition sliceFrom (s : string) (start : Z) : string :=
  slice s start (Z.of_nat (String.length s)).

(** [array.join(sep)] on an array of strings. *)
Definition join (sep : string) (parts : list string) : string :=
  String.concat sep parts.

(** [array.includes(x)] on an array of strings. *)
Definition includes (array : list string) (x : string) : bool :=
  existsb (String.eqb x) array.

(** [s.endsWith(suffix)]. *)
Definition endsWith (s suffix : string) : bool :=
  (String.length suffix <=? String.length s)%nat
  && String.eqb (drop (String.length s - String.length suffix) s) suffix.

End JS.

(* ------------------------------------------------------------------ *)
(** * Node's [path] module, POSIX flavour

    The sources import [path] and build shell commands for [bash]
    ("@returns bash command"), so the model fixes [path.sep = "/"].
    [process.cwd()] is an explicit argument of [resolve] and [relative]. *)

Module Path.

Definition sep : string := "/".

Definition isPosixPathSeparator (c : ascii) : bool := Ascii.eqb c "/".

(** [path.charCodeAt(0) === CHAR_FORWARD_SLASH] *)
Definition isAbsolute (path : string) : bool :=
  match path with
  | String c _ => isPosixPathSeparator c
  | EmptyString => false
  end.

(** [path.charCodeAt(path.length - 1) === CHAR_FORWARD_SLASH] *)
Fixpoint hasTrailingSeparator (path : string) : bool :=
  match path with
  | EmptyString => false
  | String c EmptyString => isPosixPathSeparator c
  | String _ rest => hasTrailingSeparator rest
  end.

(** The segments between separators, as [path.split("/")] gives them. *)
Fixpoint segments (path : string) : list string :=
  match path with
  | EmptyString => [EmptyString]
  | String c rest =>
      if isPosixPathSeparator c then EmptyString :: segments rest
      else match segments rest with
           | s :: l => String c s :: l
           | [] => [String c EmptyString]
           end
  end.

(** One separator-delimited segment of [normalizeString]'s scan.  [res]
    is the result built so far, as the stack of its segments (last one
    first).  Node keeps [res] as a string and the current segment as the
    counters [dots], [lastSlash] and [lastSegmentLength]; the cases are
    the same: an empty segment or ["."] is dropped, [".."] removes the
    last segment of [res] unless there is none or it is [".."] itself (then
    [".."] is kept when [allowAboveRoot]), anything else is appended. *)
Definition normalizeSegment (allowAboveRoot : bool)
           (res : list string) (segment : string) : list string :=
  if String.eqb segment "" || String.eqb segment "." then res
  else if String.eqb segment ".." then
    match res with
    | last :: res' =>
        if String.eqb last ".." then
          if allowAboveRoot then ".." :: res else res
        else res'
    | [] => if allowAboveRoot then [".."] else []
    end
  else segment :: res.

Definition normalizeSegments (allowAboveRoot : bool)
           (segs res : list string) : list string :=
  fold_left (normalizeSegment allowAboveRoot) segs res.

(** [normalizeString(path, allowAboveRoot, "/", isPosixPathSeparator)]:
    resolves ["."] and [".."] segments and collapses separators. *)
Definition normalizeString (path : string) (allowAboveRoot : bool) : string :=
  JS.join "/" (rev (normalizeSegments allowAboveRoot (segments path) [])).

(** [path.normalize(path)] *)
Definition normalize (path : string) : string :=
  if String.eqb path "" then "."
  else
    let isAbs := isAbsolute path in
    let trailingSeparator := hasTrailingSeparator path in
    let path := normalizeString path (negb isAbs) in
    if String.eqb path "" then
      if isAbs then "/" else if trailingSeparator then "./" else "."
    else
      let path := if trailingSeparator then path ++ "/" else path in
      if isAbs then "/" ++ path else path.

(** [path.join(...args)]: the non-empty arguments joined by ["/"], then
    normalized; ["."] when there is none. *)
Definition join (args : list string) : string :=
  match filter (fun arg => negb (String.eqb arg "")) args with
  | [] => "."
  | joined => normalize (JS.join "/" joined)
  end.

(** The loop of [path.resolve]: arguments from last to first, then the
    working directory, until an absolute one has been prepended. *)
Fixpoint resolveLoop (paths : list string) (resolvedPath : string)
  : string * bool :=
  match paths with
  | [] => (resolvedPath, false)
  | path :: rest =>
      if String.eqb path "" then resolveLoop rest resolvedPath
      else
        let resolvedPath := path ++ "/" ++ resolvedPath in
        if isAbsolute path then (resolvedPath, true)
        else resolveLoop rest resolvedPath
  end.

(** [path.resolve(...args)] in a process whose working directory is [cwd]. *)
Definition resolve (cwd : string) (args : list string) : string :=
  let '(resolvedPath, resolvedAbsolute) :=
    resolveLoop (rev args ++ [cwd])%list "" in
  let resolvedPath := normalizeString resolvedPath (negb resolvedAbsolute) in
  if resolvedAbsolute then "/" ++ resolvedPath
  else if String.eqb resolvedPath "" then "." else resolvedPath.

(** Strict equality of two char codes; [NaN] equals nothing. *)
Definition sameCode (a b : option ascii) : bool :=
  match a, b with
  | Some x, Some y => Ascii.eqb x y
  | _, _ => false
  end.

Definition isSlashCode (a : option ascii) : bool :=
  sameCode a (Some "/"%char).

(** First loop of [path.relative]: the longest common prefix of the two
    resolved paths.  [n] counts the iterations left up to [length];
    returns the final [i] and [lastCommonSep]. *)
Fixpoint commonLoop (from to : string) (fromStart toStart : Z)
         (n : nat) (i lastCommonSep : Z) : Z * Z :=
  match n with
  | O => (i, lastCommonSep)
  | S n' =>
      let fromCode := JS.charCodeAt from (fromStart + i) in
      if negb (sameCode fromCode (JS.charCodeAt to (toStart + i)))
      then (i, lastCommonSep)
      else commonLoop from to fromStart toStart n' (i + 1)
             (if isSlashCode fromCode then i else lastCommonSep)
  end.

(** Second loop of [path.relative]: one [".."] for every segment of
    [from] after the common part.  [n] counts the iterations left. *)
Fixpoint upLoop (from : string) (fromEnd : Z) (n : nat) (i : Z)
         (out : string) : string :=
  match n with
  | O => out
  | S n' =>
      let out :=
        if (i =? fromEnd)%Z || isSlashCode (JS.charCodeAt from i)
        then out ++ (if String.eqb out "" then ".." else "/..")
        else out in
      upLoop from fromEnd n' (i + 1) out
  end.

(** [path.relative(from, to)] in a process whose working directory is
    [cwd]. *)
Definition relative (cwd from to : string) : string :=
  if String.eqb from to then ""
  else
    let from := resolve cwd [from] in
    let to := resolve cwd [to] in
    if String.eqb from to then ""
    else
      let fromStart := 1%Z in
      let fromEnd := Z.of_nat (String.length from) in
      let fromLen := (fromEnd - fromStart)%Z in
      let toStart := 1%Z in
      let toLen := (Z.of_nat (String.length to) - toStart)%Z in
      let length := if (fromLen <? toLen)%Z then fromLen else toLen in
      let '(i, lastCommonSep) :=
        commonLoop from to fromStart toStart (Z.to_nat length) 0 (-1) in
      let finish (lastCommonSep : Z) : string :=
        let start := (fromStart + lastCommonSep + 1)%Z in
        let out :=
          upLoop from fromEnd (Z.to_nat (fromEnd - start + 1)) start "" in
        out ++ JS.sliceFrom to (toStart + lastCommonSep) in
      if (i =? length)%Z then
        if (toLen >? length)%Z then
          if isSlashCode (JS.charCodeAt to (toStart + i)) then
            JS.sliceFrom to (toStart + i + 1)
          else if (i =? 0)%Z then JS.sliceFrom to (toStart + i)
          else finish lastCommonSep
        else if (fromLen >? length)%Z then
          if isSlashCode (JS.charCodeAt from (fromStart + i)) then finish i
          else if (i =? 0)%Z then finish 0%Z
          else finish lastCommonSep
        else finish lastCommonSep
      else finish lastCommonSep.

(** The variables of [path.extname]'s backwards scan. *)
Record ExtScan : Type := mkExtScan {
  startDot : Z;
  startPart : Z;
  end_ : Z;
  matchedSlash : bool;
  preDotState : Z
}.

(** The loop of [path.extname]: [codes] are the characters at indices
    [i], [i-1], ..., [0]. *)
Fixpoint extnameLoop (codes : list ascii) (i : Z) (s : ExtScan) : ExtScan :=
  match codes with
  | [] => s
  | code :: rest =>
      if isPosixPathSeparator code then
        if negb (matchedSlash s) then
          mkExtScan (startDot s) (i + 1) (end_ s) (matchedSlash s)
                    (preDotState s)
        else extnameLoop rest (i - 1) s
      else
        let s :=
          if (end_ s =? -1)%Z
          then mkExtScan (startDot s) (startPart s) (i + 1) false
                         (preDotState s)
          else s in
        let s :=
          if Ascii.eqb code "."%char then
            if (startDot s =? -1)%Z
            then mkExtScan i (startPart s) (end_ s) (matchedSlash s)
                           (preDotState s)
            else if negb (preDotState s =? 1)%Z
            then mkExtScan (startDot s) (startPart s) (end_ s)
                           (matchedSlash s) 1
            else s
          else if negb (startDot s =? -1)%Z
          then mkExtScan (startDot s) (startPart s) (end_ s)
                         (matchedSlash s) (-1)
          else s in
        extnameLoop rest (i - 1) s
  end.

(** [path.extname(path)] *)
Definition extname (path : string) : string :=
  let s :=
    extnameLoop (rev (list_ascii_of_string path))
                (Z.of_nat (String.length path) - 1)
                (mkExtScan (-1) 0 (-1) true 0) in
  if (startDot s =? -1)%Z
     || (end_ s =? -1)%Z
     || (preDotState s =? 0)%Z
     || ((preDotState s =? 1)%Z
         && (startDot s =? end_ s - 1)%Z
         && (startDot s =? startPart s + 1)%Z)
  then ""
  else JS.slice path (startDot s) (end_ s).

End Path.

(* ------------------------------------------------------------------ *)
(** * The manager object, the host, and the monad of the methods *)

(** [class ChromiumTestManager]: its two instance fields. *)
Record ChromiumTestManager : Type := mkChromiumTestManager {
  rootDir : string;
  compileTarget : string
}.

(** What the embedded functions see of the process and of the editor:
    [process.cwd()], the file name of the active text editor's document
    ([None] when [vscode.window.activeTextEditor] is undefined), and the
    messages shown so far by [vscode.window.showInformationMessage]. *)
Record Host : Type := mkHost {
  cwd : string;
  activeTextEditor : option string;
  informationMessages : list string
}.

(** The store a method runs in: its receiver [this] and the host. *)
Record Store : Type := mkStore {
  this : ChromiumTestManager;
  host : Host
}.

(** How a call completes.  A thrown value is kept as the string that
    [`${e}`] makes of it, which is all the sources do with one. *)
Inductive Completion (A : Type) : Type :=
| Normal (value : A)
| Throw (e : string).

Arguments Normal {A} value.
Arguments Throw {A} e.

(** A computation: it completes and leaves a store. *)
Definition M (A : Type) : Type := Store -> Completion A * Store.

Definition ret {A : Type} (a : A) : M A := fun st => (Normal a, st).

Definition throw {A : Type} (e : string) : M A := fun st => (Throw e, st).

Definition bind {A B : Type} (m : M A) (k : A -> M B) : M B :=
  fun st =>
    match m st with
    | (Normal a, st') => k a st'
    | (Throw e, st') => (Throw e, st')
    end.

(** [try { body } catch (e) { handler(e) }] *)
Definition tryCatch {A : Type} (body : M A) (handler : string -> M A) : M A :=
  fun st =>
    match body st with
    | (Normal a, st') => (Normal a, st')
    | (Throw e, st') => handler e st'
    end.

Notation "x <- m ;; k" := (bind m (fun x => k))
  (at level 61, m at next level, right associativity).
Notation "m ;;; k" := (bind m (fun _ => k))
  (at level 61, right associativity).

(** Reading [this.rootDir] and [this.compileTarget]. *)
Definition thisRootDir : M string := fun st => (Normal (rootDir (this st)), st).
Definition thisCompileTarget : M string :=
  fun st => (Normal (compileTarget (this st)), st).

(** Reading [process.cwd()], as [path.relative] does. *)
Definition processCwd : M string := fun st => (Normal (cwd (host st)), st).

(** [path.relative(from, to)] as a computation. *)
Definition pathRelative (from to : string) : M string :=
  wd <- processCwd ;; ret (Path.relative wd from to).

(** [vscode.window.showInformationMessage(message)] *)
Definition showInformationMessage (message : string) : M unit :=
  fun st =>
    (Normal tt,
     mkStore (this st)
             (mkHost (cwd (host st)) (activeTextEditor (host st))
                     (informationMessages (host st) ++ [message])%list)).

(** A registered command, [() => void]. *)
Definition Command : Type := M unit.

(** The result and the final store of a run. *)
Definition result {A : Type} (m : M A) (st : Store) : Completion A := fst (m st).
Definition final {A : Type} (m : M A) (st : Store) : Store := snd (m st).

(* ------------------------------------------------------------------ *)
(** * [src/extension.ts] *)

(** [getCurrentFilePath]: throws the string "No active editor" when there
    is no active editor. *)
Definition getCurrentFilePath : M string :=
  fun st =>
    match activeTextEditor (host st) with
    | None => (Throw "No active editor", st)
    | Some fileName => (Normal fileName, st)
    end.

Definition log (message : string) : M unit := showInformationMessage message.

(** [wrapException(f)] *)
Definition wrapException (f : Command) : Command :=
  tryCatch f (fun e => log ("vscode-chromium-test error: " ++ e)).

(** [ChromiumTestManager.getCompileCommand] *)
Definition getCompileCommand (target_binary : string) : M string :=
  ct <- thisCompileTarget ;;
  ret ("autoninja -C out/" ++ ct ++ " " ++ target_binary).

(** [ChromiumTestManager.getWebTestCommand] *)
Definition getWebTestCommand (file_path : string) : M string :=
  if negb (JS.includes [".html"; ".php"] (Path.extname file_path)) then
    throw ("Wrong extension(" ++ Path.extname file_path
           ++ ") for web test. Expect .html or .php.")
  else
    root <- thisRootDir ;;
    let web_test_path :=
      Path.join [root; "third_party"; "blink"; "web_tests"] in
    let test_script_path :=
      Path.join ["third_party"; "blink"; "tools"; "run_web_tests.py"] in
    test_path <- pathRelative web_test_path file_path ;;
    ct <- thisCompileTarget ;;
    ret (test_script_path ++ " -t " ++ ct ++ " " ++ test_path).

(** [ChromiumTestManager.getCppTestCommand] *)
Definition getCppTestCommand (test_executable test_name : string) : M string :=
  root <- thisRootDir ;;
  ct <- thisCompileTarget ;;
  let absolate_executable_path :=
    Path.join [root; "out"; ct; test_executable] in
  ret (absolate_executable_path ++ " --gtest_filter=" ++ test_name).

(** [ChromiumTestManager.getTestCommand] *)
Definition getTestCommand : M string :=
  compile <- getCompileCommand "content_shell" ;;
  file_path <- getCurrentFilePath ;;
  web_test <- getWebTestCommand file_path ;;
  ret (compile ++ " && " ++ web_test).

(* ------------------------------------------------------------------ *)
(** * Revision [part_000]: no extension check, paths joined with
      [array.join(path.sep)] *)

Module Rev0.

Definition getCompileCommand (target_binary : string) : M string :=
  ct <- thisCompileTarget ;;
  ret ("autoninja -C out/" ++ ct ++ " " ++ target_binary).

Definition getWebTestCommand (file_path : string) : M string :=
  root <- thisRootDir ;;
  let web_test_path :=
    JS.join Path.sep [root; "third_party"; "blink"; "web_tests"] in
  let test_script_path :=
    JS.join Path.sep ["third_party"; "blink"; "tools"; "run_web_tests.py"] in
  test_path <- pathRelative web_test_path file_path ;;
  ct <- thisCompileTarget ;;
  ret (test_script_path ++ " -t " ++ ct ++ " " ++ test_path).

Definition getBrowserTestCommand (file_path : string) : M string :=
  ret "".

End Rev0.

(* ------------------------------------------------------------------ *)
(** * Revision [part_002]: the extension is compared with ["html"] and
      ["php"], without the dot *)

Module Rev2.

Definition getCompileCommand (target_binary : string) : M string :=
  ct <- thisCompileTarget ;;
  ret ("autoninja -C out/" ++ ct ++ " " ++ target_binary).

Definition getWebTestCommand (file_path : string) : M string :=
  if negb (JS.includes ["html"; "php"] (Path.extname file_path)) then
    throw ("Wrong extension(" ++ Path.extname file_path
           ++ ") for web test. Expect .html or .php.")
  else
    root <- thisRootDir ;;
    let web_test_path :=
      JS.join Path.sep [root; "third_party"; "blink"; "web_tests"] in
    let test_script_path :=
      JS.join Path.sep
              ["third_party"; "blink"; "tools"; "run_web_tests.py"] in
    test_path <- pathRelative web_test_path file_path ;;
    ct <- thisCompileTarget ;;
    ret (test_script_path ++ " -t " ++ ct ++ " " ++ test_path).

Definition getBrowserTestCommand (file_path : string) : M string :=
  ret "".

End Rev2.

(* ------------------------------------------------------------------ *)
(** * Revision [part_001]: the methods of [src/extension.ts], with
      [getTestCommand] and [wrap_exception] local to [activate] *)

Module Rev1.

Definition getCurrentFilePath : M string :=
  fun st =>
    match activeTextEditor (host st) with
    | None => (Throw "No active editor", st)
    | Some fileName => (Normal fileName, st)
    end.

Definition log (message : string) : M unit := showInformationMessage message.

Definition getCompileCommand (target_binary : string) : M string :=
  ct <- thisCompileTarget ;;
  ret ("autoninja -C out/" ++ ct ++ " " ++ target_binary).

Definition getWebTestCommand (file_path : string) : M string :=
  if negb (JS.includes [".html"; ".php"] (Path.extname file_path)) then
    throw ("Wrong extension(" ++ Path.extname file_path
           ++ ") for web test. Expect .html or .php.")
  else
    root <- thisRootDir ;;
    let web_test_path :=
      Path.join [root; "third_party"; "blink"; "web_tests"] in
    let test_script_path :=
      Path.join ["third_party"; "blink"; "tools"; "run_web_tests.py"] in
    test_path <- pathRelative web_test_path file_path ;;
    ct <- thisCompileTarget ;;
    ret (test_script_path ++ " -t " ++ ct ++ " " ++ test_path).

Definition getCppTestCommand (test_executable test_name : string)
  : M string :=
  root <- thisRootDir ;;
  ct <- thisCompileTarget ;;
  let absolate_executable_path :=
    Path.join [root; "out"; ct; test_executable] in
  ret (absolate_executable_path ++ " --gtest_filter=" ++ test_name).

(** [getTestCommand] of [activate], on the manager [testManager]. *)
Definition getTestCommand : M string :=
  compile <- getCompileCommand "content_shell" ;;
  file_path <- getCurrentFilePath ;;
  web_test <- getWebTestCommand file_path ;;
  ret (compile ++ " && " ++ web_test).

(** [wrap_exception(f)] of [activate]; the value of [f()] is dropped. *)
Definition wrap_exception (f : Command) : Command :=
  tryCatch (f ;;; ret tt) (fun e => log ("vscode-chromium-test: " ++ e)).

End Rev1.

(* ------------------------------------------------------------------ *)
(** * Sample stores *)

(** A checkout under [/home/dev/chromium/src], with a web test open. *)
Definition checkoutStore : Store :=
  mkStore
    (mkChromiumTestManager "/home/dev/chromium/src" "Default")
    (mkHost "/home/dev/chromium"
            (Some "/home/dev/chromium/src/third_party/blink/web_tests/fast/dom/title.html")
            []).

(** A manager whose [rootDir] is relative, in a process started in [wd]. *)
Definition relativeStore (wd : string) : Store :=
  mkStore (mkChromiumTestManager "src" "Default") (mkHost wd None []).

(** A command that throws the string [e]. *)
Definition throwingCommand (e : string) : Command := throw e.

(** How a method treats the two fields of its receiver. *)
Definition preservesFields {A : Type} (m : M A) (st : Store) : Prop :=
  rootDir (this (final m st)) = rootDir (this st)
  /\ compileTarget (this (final m st)) = compileTarget (this st).

(* ------------------------------------------------------------------ *)
(** * The workbench: what the registered commands act on *)

(** The line feed and the double quote of the sources' string
    literals. *)
Definition newline : string := String "010"%char EmptyString.
Definition doubleQuote : string := String "034"%char EmptyString.

(** A terminal of [vscode.window.terminals]: the texts passed to
    [sendText], in order, and whether [show] was called. *)
Record Terminal : Type := mkTerminal {
  sentText : list string;
  shown : bool
}.

(** The state of the extension and of the editor around it:
    - [store]: the one manager object of the extension
      ([ChromiumTestManager.self] in [src/extension.ts], the constant
      [testManager] of [activate] in the revisions) and the host;
    - [managerDefined]: [false] while that manager is still [undefined];
    - [rootPath]: [vscode.workspace.rootPath];
    - [existsSync]: [fs.existsSync];
    - [configuration]: [get] of the ['chromium'] workspace configuration;
    - [clipboard]: the text last written by [vscode.env.clipboard.writeText];
    - [statusBarMessages]: the calls of [vscode.window.setStatusBarMessage],
      text and timeout;
    - [terminals]: [vscode.window.terminals]. *)
Record Workbench : Type := mkWorkbench {
  store : Store;
  managerDefined : bool;
  rootPath : option string;
  existsSync : string -> bool;
  configuration : string -> option string;
  clipboard : option string;
  statusBarMessages : list (string * Z);
  terminals : list Terminal
}.

Definition setStore (st : Store) (w : Workbench) : Workbench :=
  mkWorkbench st (managerDefined w) (rootPath w) (existsSync w)
              (configuration w) (clipboard w) (statusBarMessages w)
              (terminals w).

Definition setManager (m : ChromiumTestManager) (w : Workbench) : Workbench :=
  mkWorkbench (mkStore m (host (store w))) true (rootPath w) (existsSync w)
              (configuration w) (clipboard w) (statusBarMessages w)
              (terminals w).

Definition setClipboard (text : string) (w : Workbench) : Workbench :=
  mkWorkbench (store w) (managerDefined w) (rootPath w) (existsSync w)
              (configuration w) (Some text) (statusBarMessages w)
              (terminals w).

Definition setStatusBarMessages (l : list (string * Z)) (w : Workbench)
  : Workbench :=
  mkWorkbench (store w) (managerDefined w) (rootPath w) (existsSync w)
              (configuration w) (clipboard w) l (terminals w).

Definition setTerminals (l : list Terminal) (w : Workbench) : Workbench :=
  mkWorkbench (store w) (managerDefined w) (rootPath w) (existsSync w)
              (configuration w) (clipboard w) (statusBarMessages w) l.

(** A computation on the workbench. *)
Definition W (A : Type) : Type := Workbench -> Completion A * Workbench.

Definition wret {A : Type} (a : A) : W A := fun w => (Normal a, w).

Definition wthrow {A : Type} (e : string) : W A := fun w => (Throw e, w).

Definition wbind {A B : Type} (m : W A) (k : A -> W B) : W B :=
  fun w =>
    match m w with
    | (Normal a, w') => k a w'
    | (Throw e, w') => (Throw e, w')
    end.

(** [try { body } catch (e) { handler(e) }] *)
Definition wtryCatch {A : Type} (body : W A) (handler : string -> W A)
  : W A :=
  fun w =>
    match body w with
    | (Normal a, w') => (Normal a, w')
    | (Throw e, w') => handler e w'
    end.

Declare Scope workbench_scope.
Delimit Scope workbench_scope with workbench.
Notation "x <- m ;; k" := (wbind m (fun x => k))
  (at level 61, m at next level, right associativity) : workbench_scope.
Notation "m ;;; k" := (wbind m (fun _ => k))
  (at level 61, right associativity) : workbench_scope.

(** A computation on the store, run on the store of the workbench. *)
Definition liftM {A : Type} (m : M A) : W A :=
  fun w => let '(r, st) := m (store w) in (r, setStore st w).

(** What reading the property [name] of [undefined] throws, as a string. *)
Definition typeErrorOfUndefined (name : string) : string :=
  "TypeError: Cannot read property '" ++ name ++ "' of undefined".

(** [manager.method(...)] where [manager] may still be [undefined]. *)
Definition callManager {A : Type} (name : string) (method : M A) : W A :=
  fun w =>
    if managerDefined w then liftM method w
    else (Throw (typeErrorOfUndefined name), w).

(** The result and the final workbench of a run. *)
Definition outcome {A : Type} (m : W A) (w : Workbench) : Completion A :=
  fst (m w).
Definition after {A : Type} (m : W A) (w : Workbench) : Workbench :=
  snd (m w).

(** A registered command and the list [context.subscriptions] receives. *)
Definition Registered : Type := list (string * W unit).

(** [new ChromiumTestManager(rootDir, compileTarget = "Default")] *)
Definition newChromiumTestManager (rootDir : string)
           (compileTarget : option string) : ChromiumTestManager :=
  mkChromiumTestManager rootDir
    (match compileTarget with Some target => target | None => "Default" end).

(** ** The host interface *)

Module Vscode.
Local Open Scope workbench_scope.

(** [vscode.env.clipboard.writeText(text)] *)
Definition writeText (text : string) : W unit :=
  fun w => (Normal tt, setClipboard text w).

(** [vscode.window.setStatusBarMessage(text, hideAfterTimeout)] *)
Definition setStatusBarMessage (text : string) (hideAfterTimeout : Z)
  : W unit :=
  fun w =>
    (Normal tt,
     setStatusBarMessages
       (statusBarMessages w ++ [(text, hideAfterTimeout)])%list w).

(** [vscode.window.terminals] *)
Definition windowTerminals : W (list Terminal) :=
  fun w => (Normal (terminals w), w).

(** [vscode.window.createTerminal()]: the new terminal is the last of
    [vscode.window.terminals]; a terminal is named by its index there. *)
Definition createTerminal : W nat :=
  fun w =>
    (Normal (List.length (terminals w)),
     setTerminals (terminals w ++ [mkTerminal [] false])%list w).

(** The terminals with the one at [index] replaced by [f] of it. *)
Fixpoint updateTerminal (index : nat) (f : Terminal -> Terminal)
         (l : list Terminal) : list Terminal :=
  match l, index with
  | [], _ => []
  | t :: rest, O => f t :: rest
  | t :: rest, S index' => t :: updateTerminal index' f rest
  end.

(** [terminal.sendText(text)] *)
Definition sendText (terminal : nat) (text : string) : W unit :=
  fun w =>
    (Normal tt,
     setTerminals
       (updateTerminal terminal
          (fun t => mkTerminal (sentText t ++ [text])%list (shown t))
          (terminals w)) w).

(** [terminal.show()] *)
Definition show (terminal : nat) : W unit :=
  fun w =>
    (Normal tt,
     setTerminals
       (updateTerminal terminal (fun t => mkTerminal (sentText t) true)
          (terminals w)) w).

(** [vscode.workspace.rootPath] *)
Definition workspaceRootPath : W (option string) :=
  fun w => (Normal (rootPath w), w).

(** [configuration.get<string>(key)] *)
Definition configurationGet (key : string) : W (option string) :=
  fun w => (Normal (configuration w key), w).

(** [fs.existsSync(path)] *)
Definition fsExistsSync (path : string) : W bool :=
  fun w => (Normal (existsSync w path), w).

(** [path.resolve(path)] *)
Definition pathResolve (path : string) : W string :=
  fun w => (Normal (Path.resolve (cwd (host (store w))) [path]), w).

(** [pasteToClipboard], the same in every revision. *)
Definition pasteToClipboard (input : string) : W unit :=
  writeText input ;;;
  setStatusBarMessage
    (doubleQuote ++ input ++ doubleQuote ++ " was copied to the clipboard.")
    3000.

End Vscode.

(* ------------------------------------------------------------------ *)
(** * [src/extension.ts]: terminal, start-up and the registered commands *)

Module Extension.
Local Open Scope workbench_scope.

Definition pasteToClipboard : string -> W unit := Vscode.pasteToClipboard.

(** [getTerminal] *)
Definition getTerminal : W nat :=
  ts <- Vscode.windowTerminals ;;
  if (List.length ts =? 0)%nat then
    terminal <- Vscode.createTerminal ;;
    Vscode.sendText terminal ("cd src" ++ newline) ;;;
    wret terminal
  else wret 0%nat.

(** [runCommand] *)
Definition runCommand (command : string) : W unit :=
  terminal <- getTerminal ;;
  Vscode.show terminal ;;;
  Vscode.sendText terminal (command ++ newline).

(** [wrapException], on a command that acts on the workbench. *)
Definition wrapException (f : W unit) : W unit :=
  wtryCatch f (fun e => liftM (log ("vscode-chromium-test error: " ++ e))).

(** [initChromiumTestManager] *)
Definition initChromiumTestManager : W unit :=
  root <- Vscode.workspaceRootPath ;;
  match root with
  | None =>
      wthrow
        "No opened folder. Please open a folder that contains chromium checkout."
  | Some rootPath =>
      found <- Vscode.fsExistsSync
                 (Path.join [rootPath; "src"; "LICENSE.chromium_os"]) ;;
      if negb found then
        wthrow "Current project is not a chromium checkout."
      else
        fun w =>
          (Normal tt,
           setManager
             (newChromiumTestManager (Path.join [rootPath; "src"]) None) w)
  end.

(** [exportCommand] *)
Definition exportCommand (command : W unit) : W unit :=
  wrapException (initChromiumTestManager ;;; command).

(** The command registered as ['chromium.copyWebTestCommand']. *)
Definition copyWebTestCommand : W unit :=
  exportCommand
    (command <- callManager "getTestCommand" getTestCommand ;;
     pasteToClipboard command).

(** The command registered as ['chromium.runWebTest']. *)
Definition runWebTest : W unit :=
  exportCommand
    (command <- callManager "getTestCommand" getTestCommand ;;
     runCommand command).

(** [activate]: the two registrations. *)
Definition activate : W Registered :=
  wret [("chromium.copyWebTestCommand", copyWebTestCommand);
        ("chromium.runWebTest", runWebTest)].

End Extension.

(* ------------------------------------------------------------------ *)
(** * Revision [part_000]: activation and its command *)

Module Rev0Editor.
Local Open Scope workbench_scope.

(** [getCurrentFilePath]: no test for a missing editor. *)
Definition getCurrentFilePath : W string :=
  fun w =>
    match activeTextEditor (host (store w)) with
    | None => (Throw (typeErrorOfUndefined "document"), w)
    | Some fileName => (Normal fileName, w)
    end.

(** [log]: a status bar message. *)
Definition log (message : string) : W unit :=
  Vscode.setStatusBarMessage message 3000.

(** The command registered as ['chromium.copyWebTestCommand']; not
    wrapped. *)
Definition copyWebTestCommand : W unit :=
  compile <- liftM (Rev0.getCompileCommand "content_shell") ;;
  file_path <- getCurrentFilePath ;;
  web_test <- liftM (Rev0.getWebTestCommand file_path) ;;
  Vscode.pasteToClipboard (compile ++ " && " ++ web_test).

(** [activate]: returns early, registering nothing, when a setting is
    missing. *)
Definition activate : W Registered :=
  chromiumDir <- Vscode.configurationGet "chromium.rootDir" ;;
  chromiumTargetConfig <- Vscode.configurationGet "chromium.targetConfig" ;;
  match chromiumDir with
  | None => log "chromium.rootDir not configed in config.json" ;;; wret []
  | Some chromiumDir =>
      match chromiumTargetConfig with
      | None =>
          log "chromium.targetConfig not configed in config.json" ;;; wret []
      | Some chromiumTargetConfig =>
          (fun w =>
             (Normal tt,
              setManager
                (newChromiumTestManager chromiumDir
                                        (Some chromiumTargetConfig)) w)) ;;;
          wret [("chromium.copyWebTestCommand", copyWebTestCommand)]
      end
  end.

End Rev0Editor.

(* ------------------------------------------------------------------ *)
(** * Revisions [part_001] and [part_002]: activation with defaults *)

(** [getCurrentFilePath] and [log] read the same in [part_001] and
    [part_002]; [Rev1.getCurrentFilePath] and [Rev1.log] stand for both.

    The settings read by [activate] in both revisions: a missing one is
    reported through [log] and replaced by its default, and the directory
    is resolved. *)
Definition activateManager : W unit :=
  (chromiumDir <- Vscode.configurationGet "chromium.rootDir" ;;
   chromiumTargetConfig <- Vscode.configurationGet "chromium.targetConfig" ;;
   chromiumDir <-
     match chromiumDir with
     | None =>
         liftM (Rev1.log "chromium.rootDir not configed in config.json") ;;;
         wret "chromium/src"
     | Some chromiumDir => wret chromiumDir
     end ;;
   chromiumDir <- Vscode.pathResolve chromiumDir ;;
   chromiumTargetConfig <-
     match chromiumTargetConfig with
     | None =>
         liftM (Rev1.log "chromium.targetConfig not configed in config.json") ;;;
         wret "Default"
     | Some chromiumTargetConfig => wret chromiumTargetConfig
     end ;;
   fun w =>
     (Normal tt,
      setManager
        (newChromiumTestManager chromiumDir (Some chromiumTargetConfig)) w)
  )%workbench.

Module Rev1Editor.
Local Open Scope workbench_scope.

(** [wrap_exception], on a command that acts on the workbench. *)
Definition wrap_exception (f : W unit) : W unit :=
  wtryCatch (f ;;; wret tt)
            (fun e => liftM (Rev1.log ("vscode-chromium-test: " ++ e))).

Definition copyWebTestCommand : W unit :=
  wrap_exception
    (command <- liftM Rev1.getTestCommand ;;
     Vscode.pasteToClipboard command).

Definition runWebTest : W unit :=
  wrap_exception
    (command <- liftM Rev1.getTestCommand ;;
     Extension.runCommand command).

Definition activate : W Registered :=
  activateManager ;;;
  wret [("chromium.copyWebTestCommand", copyWebTestCommand);
        ("chromium.runWebTest", runWebTest)].

End Rev1Editor.

Module Rev2Editor.
Local Open Scope workbench_scope.

(** The command registered as ['chromium.copyWebTestCommand'], with its
    own [try] and [catch]. *)
Definition copyWebTestCommand : W unit :=
  wtryCatch
    (compile <- liftM (Rev2.getCompileCommand "content_shell") ;;
     file_path <- liftM Rev1.getCurrentFilePath ;;
     web_test <- liftM (Rev2.getWebTestCommand file_path) ;;
     Vscode.pasteToClipboard (compile ++ " && " ++ web_test) ;;;
     liftM (showInformationMessage (compile ++ " && " ++ web_test)))
    (fun e => liftM (Rev1.log ("vscode-chromium-test: " ++ e))).

Definition activate : W Registered :=
  activateManager ;;;
  wret [("chromium.copyWebTestCommand", copyWebTestCommand)].

End Rev2Editor.

(* ------------------------------------------------------------------ *)
(** * Notions used in the statements about the workbench *)

(** A name of a file or directory, as a test: not empty, not ["."] or
    [".."], no separator inside. *)
Definition isNameSegment (s : string) : bool :=
  negb (String.eqb s "") && negb (String.eqb s ".")
  && negb (String.eqb s "..")
  && forallb (fun c => negb (Path.isPosixPathSeparator c))
             (list_ascii_of_string s).

(** [w'] is [w] plus one information message: clipboard, status bar and
    terminals are as they were. *)
Definition reportsOnly (message : string) (w w' : Workbench) : Prop :=
  informationMessages (host (store w'))
  = (informationMessages (host (store w)) ++ [message])%list
  /\ clipboard w' = clipboard w
  /\ statusBarMessages w' = statusBarMessages w
  /\ terminals w' = terminals w.

(** The folder [folder] is open and holds a checkout, and the active
    editor shows the file [file_path]. *)
Definition checkoutOpen (folder file_path : string) (w : Workbench) : Prop :=
  rootPath w = Some folder
  /\ existsSync w (Path.join [folder; "src"; "LICENSE.chromium_os"]) = true
  /\ activeTextEditor (host (store w)) = Some file_path.

(** The file [names] below the web tests of the checkout in [folder]. *)
Definition webTestFile (folder : string) (names : list string) : string :=
  Path.join [folder; "src"] ++ "/third_party/blink/web_tests/"
  ++ JS.join "/" names.

(** The command for the web test [test_path] with the default build
    configuration. *)
Definition defaultTestCommand (test_path : string) : string :=
  "autoninja -C out/Default content_shell && third_party/blink/tools/run_web_tests.py -t Default "
  ++ test_path.

(** Running commands one after the other. *)
Fixpoint runCommands (commands : list string) : W unit :=
  match commands with
  | [] => wret tt
  | command :: rest =>
      wbind (Extension.runCommand command) (fun _ => runCommands rest)
  end.

(** A window with a checkout in [/home/dev/chromium], a web test open,
    nothing copied and no terminal. *)
Definition checkoutWorkbench : Workbench :=
  mkWorkbench checkoutStore false (Some "/home/dev/chromium")
    (fun path =>
       String.eqb path "/home/dev/chromium/src/LICENSE.chromium_os")
    (fun _ => None) None [] [].

(** The same window with no folder open. *)
Definition emptyWorkbench : Workbench :=
  mkWorkbench checkoutStore false None (fun _ => false) (fun _ => None)
              None [] [].

(* ------------------------------------------------------------------ *)
(** * Facts about the [path] model *)

Module PathFacts.
Import Path.

(** ** Notions used in the statements *)

(** A string without separator: it is its own single segment. *)
Definition noSeparator (s : string) : Prop := segments s = [s].

(** A segment that [normalizeString] keeps: no separator inside, neither
    empty nor ["."]. *)
Definition keptSegment (s : string) : Prop :=
  noSeparator s /\ s <> "" /\ s <> ".".

(** A kept segment other than [".."]. *)
Definition nameSegment (s : string) : Prop :=
  keptSegment s /\ s <> "..".

(** Where [resolve] starts from for one non-empty argument: the
    segments in front of it and whether the result is absolute. *)
Definition resolveBase (cwd : string) (pathAbsolute : bool)
  : list string * bool :=
  if pathAbsolute then ([], true)
  else if String.eqb cwd "" then ([], false)
  else (normalizeSegments (negb (isAbsolute cwd)) (segments cwd) [],
        isAbsolute cwd).

Definition resolveFinish (resolvedAbsolute : bool) (resolvedPath : string)
  : string :=
  if resolvedAbsolute then "/" ++ resolvedPath
  else if String.eqb resolvedPath "" then "." else resolvedPath.

(** The segments [resolve] keeps of one non-empty argument. *)
Definition resolvedSegments (wd p : string) : list string :=
  normalizeSegments (negb (snd (resolveBase wd (isAbsolute p))))
                    (segments p) (fst (resolveBase wd (isAbsolute p))).

(** A character of a name: neither the separator nor a dot. *)
Definition nameCode (c : ascii) : bool :=
  negb (isPosixPathSeparator c) && negb (Ascii.eqb c ".").

(** [startDot] is unset or is the index of a dot of [p]. *)
Definition dotAt (p : string) (s : ExtScan) : Prop :=
  startDot s = (-1)%Z
  \/ ((0 <= startDot s)%Z
      /\ String.get (Z.to_nat (startDot s)) p = Some "."%char).

(** ** Strings *)

Lemma append_empty_r (s : string) : s ++ "" = s.
Proof. induction s; simpl; congruence. Qed.

Lemma append_assoc (a b c : string) : (a ++ b) ++ c = a ++ b ++ c.
Proof. induction a; simpl; congruence. Qed.

Lemma eqb_empty_false (s : string) : s <> "" -> String.eqb s "" = false.
Proof. intros H. now apply String.eqb_neq. Qed.

Lemma append_nonempty_r (a b : string) : b <> "" -> a ++ b <> "".
Proof. destruct a; simpl; [tauto | discriminate]. Qed.

(** ** Segments *)

Lemma segments_not_nil (p : string) : segments p <> [].
Proof.
  destruct p as [|c p]; simpl; [discriminate|].
  destruct (isPosixPathSeparator c); [discriminate|].
  destruct (segments p); discriminate.
Qed.

Lemma segments_app_sep (a b : string) :
  segments (a ++ "/" ++ b) = (segments a ++ segments b)%list.
Proof.
  induction a as [|c a IH]; [reflexivity|].
  change (String c a ++ "/" ++ b) with (String c (a ++ "/" ++ b)).
  cbn [segments]. rewrite IH.
  destruct (isPosixPathSeparator c); [reflexivity|].
  destruct (segments a) eqn:E; [now apply segments_not_nil in E|reflexivity].
Qed.

Lemma segments_noSeparator (p : string) : Forall noSeparator (segments p).
Proof.
  induction p as [|c p IH]; [now repeat constructor|].
  cbn [segments]. destruct (isPosixPathSeparator c) eqn:Ec.
  - constructor; [reflexivity | exact IH].
  - destruct (segments p) as [|s l] eqn:E; [now apply segments_not_nil in E|].
    inversion IH as [|? ? Hs Hl]; subst. constructor; [|exact Hl].
    unfold noSeparator in *. cbn [segments]. now rewrite Ec, Hs.
Qed.

Lemma segments_join (l : list string) :
  l <> [] -> Forall noSeparator l -> segments (JS.join "/" l) = l.
Proof.
  induction l as [|x l IH]; [congruence|]. intros _ H.
  inversion H as [|? ? Hx Hl]; subst.
  destruct l as [|y l]; [exact Hx|].
  unfold JS.join in *.
  change (String.concat "/" (x :: y :: l))
    with (x ++ "/" ++ String.concat "/" (y :: l)).
  rewrite segments_app_sep, Hx, IH; [reflexivity | discriminate | exact Hl].
Qed.

Lemma join_snoc_nonempty (l : list string) (x : string) :
  x <> "" -> JS.join "/" (l ++ [x]) <> "".
Proof.
  intros Hx. induction l as [|y l IH]; [exact Hx|].
  unfold JS.join in *. cbn [app].
  destruct (l ++ [x])%list as [|z l'] eqn:E; [now destruct l|].
  change (String.concat "/" (y :: z :: l'))
    with (y ++ "/" ++ String.concat "/" (z :: l')).
  apply append_nonempty_r. discriminate.
Qed.

(** ** Normalization of segment lists *)

Lemma normalizeSegment_skip (allow : bool) (res : list string) (s : string) :
  s = "" \/ s = "." -> normalizeSegment allow res s = res.
Proof. intros [-> | ->]; reflexivity. Qed.

Lemma normalizeSegment_name (allow : bool) (res : list string) (s : string) :
  s <> "" -> s <> "." -> s <> ".." ->
  normalizeSegment allow res s = s :: res.
Proof.
  intros H1 H2 H3. unfold normalizeSegment.
  apply String.eqb_neq in H1, H2, H3. now rewrite H1, H2, H3.
Qed.

Lemma normalizeSegment_cases (s : string) :
  (s = "" \/ s = ".") \/ s = ".." \/ (s <> "" /\ s <> "." /\ s <> "..").
Proof.
  destruct (String.eqb_spec s ""); [tauto|].
  destruct (String.eqb_spec s "."); [tauto|].
  destruct (String.eqb_spec s ".."); tauto.
Qed.

Lemma keptSegment_dotdot : keptSegment "..".
Proof. repeat split; discriminate. Qed.

Lemma normalizeSegment_kept (allow : bool) (res : list string) (s : string) :
  Forall keptSegment res -> noSeparator s ->
  Forall keptSegment (normalizeSegment allow res s).
Proof.
  intros Hres Hs.
  destruct (normalizeSegment_cases s) as [H | [-> | (H1 & H2 & H3)]].
  - now rewrite normalizeSegment_skip.
  - unfold normalizeSegment. cbn [String.eqb Ascii.eqb Bool.eqb orb].
    destruct res as [|last res'].
    + destruct allow; repeat constructor; try discriminate.
    + inversion Hres; subst.
      destruct (String.eqb last ".."); [|assumption].
      destruct allow; [|assumption].
      constructor; [exact keptSegment_dotdot | assumption].
  - rewrite normalizeSegment_name by assumption.
    constructor; [|assumption]. repeat split; assumption.
Qed.

Lemma normalizeSegments_kept (allow : bool) (segs res : list string) :
  Forall noSeparator segs -> Forall keptSegment res ->
  Forall keptSegment (normalizeSegments allow segs res).
Proof.
  revert res. induction segs as [|s segs IH]; intros res Hs Hres;
    [exact Hres|].
  inversion Hs; subst. cbn [normalizeSegments fold_left].
  apply IH; [assumption|]. now apply normalizeSegment_kept.
Qed.

Lemma normalizeSegments_app (allow : bool) (l1 l2 res : list string) :
  normalizeSegments allow (l1 ++ l2) res
  = normalizeSegments allow l2 (normalizeSegments allow l1 res).
Proof. apply fold_left_app. Qed.

(** Normalizing an already normalized relative path, after any prefix
    [st], is normalizing the path itself after [st]: one segment. *)
Lemma normalizeSegment_replay (allow : bool) (S st : list string) (s : string) :
  Forall keptSegment S ->
  normalizeSegments allow (rev (normalizeSegment true S s)) st
  = normalizeSegment allow (normalizeSegments allow (rev S) st) s.
Proof.
  intros HS.
  destruct (normalizeSegment_cases s) as [H | [-> | (H1 & H2 & H3)]].
  - now rewrite !normalizeSegment_skip.
  - destruct S as [|last S']; [reflexivity|].
    inversion HS as [|? ? (_ & L1 & L2) _]; subst.
    unfold normalizeSegment at 1.
    cbn [String.eqb Ascii.eqb Bool.eqb orb].
    destruct (String.eqb_spec last "..") as [-> | L3].
    + change (rev (".." :: ".." :: S')) with (rev (".." :: S') ++ [".."])%list.
      now rewrite normalizeSegments_app.
    + change (rev (last :: S')) with (rev S' ++ [last])%list.
      rewrite normalizeSegments_app. cbn [normalizeSegments fold_left].
      rewrite (normalizeSegment_name allow _ last) by assumption.
      unfold normalizeSegment.
      cbn [String.eqb Ascii.eqb Bool.eqb orb].
      apply String.eqb_neq in L3. now rewrite L3.
  - rewrite (normalizeSegment_name true) by assumption.
    change (rev (s :: S)) with (rev S ++ [s])%list.
    now rewrite normalizeSegments_app.
Qed.

Lemma normalizeSegments_replay (allow : bool) (segs S st : list string) :
  Forall noSeparator segs -> Forall keptSegment S ->
  normalizeSegments allow (rev (normalizeSegments true segs S)) st
  = normalizeSegments allow segs (normalizeSegments allow (rev S) st).
Proof.
  revert S. induction segs as [|s segs IH]; intros S Hs HS; [reflexivity|].
  inversion Hs; subst. cbn [normalizeSegments fold_left].
  fold (normalizeSegments true segs (normalizeSegment true S s)).
  rewrite IH by (try apply normalizeSegment_kept; assumption).
  rewrite normalizeSegment_replay by assumption. reflexivity.
Qed.

(** Below the root ([allowAboveRoot = false]) no [".."] is ever kept. *)
Lemma normalizeSegment_names (res : list string) (s : string) :
  Forall nameSegment res -> noSeparator s ->
  Forall nameSegment (normalizeSegment false res s).
Proof.
  intros Hres Hs.
  destruct (normalizeSegment_cases s) as [H | [-> | (H1 & H2 & H3)]].
  - now rewrite normalizeSegment_skip.
  - unfold normalizeSegment. cbn [String.eqb Ascii.eqb Bool.eqb orb].
    destruct res as [|last res']; [constructor|].
    inversion Hres; subst. now destruct (String.eqb last "..").
  - rewrite normalizeSegment_name by assumption.
    constructor; [|assumption]. repeat split; assumption.
Qed.

Lemma normalizeSegments_names (segs res : list string) :
  Forall noSeparator segs -> Forall nameSegment res ->
  Forall nameSegment (normalizeSegments false segs res).
Proof.
  revert res. induction segs as [|s segs IH]; intros res Hs Hres;
    [exact Hres|].
  inversion Hs; subst. cbn [normalizeSegments fold_left].
  apply IH; [assumption|]. now apply normalizeSegment_names.
Qed.

(** Names are only pushed. *)
Lemma normalizeSegments_push_names (allow : bool) (S st : list string) :
  Forall nameSegment S ->
  normalizeSegments allow (rev S) st = (S ++ st)%list.
Proof.
  induction S as [|s S IH]; intros H; [reflexivity|].
  inversion H as [|? ? ((_ & H1 & H2) & H3) HS]; subst.
  change (rev (s :: S)) with (rev S ++ [s])%list.
  rewrite normalizeSegments_app, IH by assumption.
  cbn [normalizeSegments fold_left].
  now rewrite normalizeSegment_name.
Qed.

(** ** [normalize] and [resolve] *)

Lemma noSeparator_not_absolute (s : string) :
  noSeparator s -> isAbsolute s = false.
Proof.
  destruct s as [|c s]; [reflexivity|]. unfold noSeparator. cbn.
  destruct (isPosixPathSeparator c); [|reflexivity].
  intros H. inversion H.
Qed.

Lemma isAbsolute_append (a b : string) :
  a <> "" -> isAbsolute (a ++ b) = isAbsolute a.
Proof. now destruct a. Qed.

Lemma join_cons (x : string) (l : list string) :
  JS.join "/" (x :: l)
  = match l with [] => x | _ => x ++ "/" ++ JS.join "/" l end.
Proof. reflexivity. Qed.

Lemma join_kept_nonempty (l : list string) :
  l <> [] -> Forall keptSegment l -> JS.join "/" l <> "".
Proof.
  destruct l as [|x l]; [congruence|]. intros _ H.
  inversion H as [|? ? (_ & Hx & _) _]; subst. rewrite join_cons.
  destruct l; [exact Hx|]. destruct x; [congruence | discriminate].
Qed.

Lemma join_kept_relative (l : list string) :
  Forall keptSegment l -> isAbsolute (JS.join "/" l) = false.
Proof.
  destruct l as [|x l]; [reflexivity|]. intros H.
  inversion H as [|? ? (Hs & Hx & _) _]; subst. rewrite join_cons.
  destruct l; [|rewrite isAbsolute_append by exact Hx];
    now apply noSeparator_not_absolute.
Qed.

Lemma keptSegment_noSeparator (l : list string) :
  Forall keptSegment l -> Forall noSeparator l.
Proof. apply Forall_impl. now intros s (H & _). Qed.

Lemma segments_trailing (p : string) :
  segments (p ++ "/") = (segments p ++ [""])%list.
Proof. exact (segments_app_sep p ""). Qed.

Lemma segments_leading (p : string) :
  segments ("/" ++ p) = "" :: segments p.
Proof. reflexivity. Qed.

Lemma normalizeSegments_trailing (allow : bool) (segs st : list string) :
  normalizeSegments allow (segs ++ [""]) st = normalizeSegments allow segs st.
Proof. now rewrite normalizeSegments_app. Qed.

(** What [normalize] returns, read back as segments: the normalized
    segments of the path, up to empty ones. *)
Lemma normalize_segments (p : string) :
  p <> "" ->
  normalize p <> ""
  /\ isAbsolute (normalize p) = isAbsolute p
  /\ forall allow st,
      normalizeSegments allow (segments (normalize p)) st
      = normalizeSegments allow
          (rev (normalizeSegments (negb (isAbsolute p)) (segments p) [])) st.
Proof.
  intros Hp. unfold normalize, normalizeString.
  rewrite (eqb_empty_false p Hp).
  pose proof (normalizeSegments_kept (negb (isAbsolute p)) (segments p) []
                (segments_noSeparator p) (Forall_nil _)) as HS.
  set (S := normalizeSegments (negb (isAbsolute p)) (segments p) []) in *.
  destruct S as [|top S'] eqn:ES.
  - cbn [rev JS.join String.concat String.eqb].
    destruct (isAbsolute p); [|destruct (hasTrailingSeparator p)];
      (split; [discriminate | split; [reflexivity | reflexivity]]).
  - assert (Hrev : rev (top :: S') <> []).
    { intros E. apply (f_equal (@List.length string)) in E.
      rewrite length_rev in E. discriminate. }
    assert (Hk : Forall keptSegment (rev (top :: S')))
      by now apply Forall_rev.
    pose proof (join_kept_nonempty _ Hrev Hk) as Hn.
    pose proof (join_kept_relative _ Hk) as Hrel.
    pose proof (segments_join _ Hrev (keptSegment_noSeparator _ Hk)) as Hseg.
    set (n := JS.join "/" (rev (top :: S'))) in *.
    rewrite (eqb_empty_false n Hn).
    destruct (isAbsolute p), (hasTrailingSeparator p).
    + split; [discriminate | split; [reflexivity|]]. intros allow st.
      rewrite segments_leading, segments_trailing, Hseg.
      cbn [normalizeSegments fold_left].
      rewrite (normalizeSegment_skip allow st "") by tauto.
      apply normalizeSegments_trailing.
    + split; [discriminate | split; [reflexivity|]]. intros allow st.
      rewrite segments_leading, Hseg. cbn [normalizeSegments fold_left].
      now rewrite (normalizeSegment_skip allow st "") by tauto.
    + split; [now apply append_nonempty_r|].
      split; [now rewrite isAbsolute_append|]. intros allow st.
      rewrite segments_trailing, Hseg. apply normalizeSegments_trailing.
    + split; [exact Hn | split; [exact Hrel|]]. intros allow st.
      now rewrite Hseg.
Qed.

Lemma resolve_single (cwd p : string) :
  p <> "" ->
  resolve cwd [p]
  = resolveFinish (snd (resolveBase cwd (isAbsolute p)))
      (JS.join "/"
         (rev (normalizeSegments
                 (negb (snd (resolveBase cwd (isAbsolute p))))
                 (segments p)
                 (fst (resolveBase cwd (isAbsolute p)))))).
Proof.
  intros Hp. unfold resolve, resolveBase, resolveFinish.
  cbn [rev app resolveLoop]. rewrite (eqb_empty_false p Hp).
  change (p ++ "/" ++ "") with (p ++ "/").
  destruct (isAbsolute p).
  - cbn [fst snd negb]. unfold normalizeString.
    now rewrite segments_trailing, normalizeSegments_trailing.
  - destruct (String.eqb cwd "") eqn:Ec.
    + cbn [fst snd negb]. unfold normalizeString.
      now rewrite segments_trailing, normalizeSegments_trailing.
    + cbn [fst snd]. unfold normalizeString.
      destruct (isAbsolute cwd); cbn [negb];
        rewrite segments_app_sep, segments_trailing;
        now rewrite normalizeSegments_app, normalizeSegments_trailing.
Qed.

(** Resolving a normalized path is resolving the path. *)
Theorem resolve_normalize (cwd p : string) :
  p <> "" -> resolve cwd [normalize p] = resolve cwd [p].
Proof.
  intros Hp.
  destruct (normalize_segments p Hp) as (Hn & Habs & Hseg).
  rewrite (resolve_single cwd (normalize p) Hn), (resolve_single cwd p Hp).
  rewrite Habs, Hseg. do 3 f_equal.
  unfold resolveBase. destruct (isAbsolute p).
  - cbn [fst snd negb]. rewrite normalizeSegments_push_names.
    + apply app_nil_r.
    + apply normalizeSegments_names;
        [apply segments_noSeparator | constructor].
  - cbn [negb].
    rewrite normalizeSegments_replay;
      [reflexivity | apply segments_noSeparator | constructor].
Qed.

(** An absolute path resolves without the working directory. *)
Lemma resolve_absolute (cwd cwd' p : string) :
  isAbsolute p = true -> resolve cwd [p] = resolve cwd' [p].
Proof.
  intros Hp. assert (p <> "") by (intros ->; discriminate).
  rewrite !resolve_single by assumption.
  unfold resolveBase. now rewrite Hp.
Qed.

(** [relative] sees its arguments through [resolve] only. *)
Lemma relative_resolved (cwd cwd' from from' to : string) :
  resolve cwd [from] = resolve cwd' [from'] ->
  resolve cwd [to] = resolve cwd' [to] ->
  relative cwd from to = relative cwd' from' to.
Proof.
  intros Hfrom Hto. unfold relative.
  destruct (String.eqb_spec from to) as [-> | _];
    destruct (String.eqb_spec from' to) as [-> | _].
  - reflexivity.
  - now rewrite <- Hto, <- Hfrom, String.eqb_refl.
  - now rewrite Hfrom, Hto, String.eqb_refl.
  - now rewrite Hfrom, Hto.
Qed.

(** ** [join] on a directory and three names *)

Lemma join_directory (dir a b c : string) :
  dir <> "" -> a <> "" -> b <> "" -> c <> "" ->
  Path.join [dir; a; b; c] = normalize (JS.join "/" [dir; a; b; c]).
Proof.
  intros Hd Ha Hb Hc. unfold Path.join. cbn [filter].
  now rewrite !eqb_empty_false by assumption.
Qed.

Lemma array_join_directory_nonempty (dir a b c : string) :
  dir <> "" -> JS.join "/" [dir; a; b; c] <> "".
Proof.
  intros Hd. rewrite join_cons. destruct dir; [congruence | discriminate].
Qed.

Lemma array_join_directory_absolute (dir a b c : string) :
  dir <> "" ->
  isAbsolute (JS.join "/" [dir; a; b; c]) = isAbsolute dir.
Proof. intros Hd. rewrite join_cons. now apply isAbsolute_append. Qed.

Lemma normalized_nonempty (p : string) : normalize p = p -> p <> "".
Proof. intros H ->. discriminate. Qed.

(** ** [extname] of a path that ends in a dot and a name *)

Lemma length_append (a b : string) :
  String.length (a ++ b) = String.length a + String.length b.
Proof. induction a; simpl; congruence. Qed.

Lemma list_ascii_of_string_append (a b : string) :
  list_ascii_of_string (a ++ b)
  = (list_ascii_of_string a ++ list_ascii_of_string b)%list.
Proof. induction a; simpl; congruence. Qed.

Lemma length_list_ascii (s : string) :
  List.length (list_ascii_of_string s) = String.length s.
Proof. induction s; simpl; congruence. Qed.

Lemma drop_append (a b : string) : JS.drop (String.length a) (a ++ b) = b.
Proof. induction a; [now destruct b | assumption]. Qed.

Lemma take_all (s : string) : JS.take (String.length s) s = s.
Proof. induction s; simpl; congruence. Qed.

Lemma nameCode_spec (c : ascii) :
  nameCode c = true ->
  isPosixPathSeparator c = false /\ Ascii.eqb c "." = false.
Proof.
  unfold nameCode. rewrite andb_true_iff, !negb_true_iff. tauto.
Qed.

(** The last character of the path: it fixes [end] and clears
    [matchedSlash]. *)
Lemma extnameLoop_last (c : ascii) (rest : list ascii) (i : Z) :
  nameCode c = true ->
  extnameLoop (c :: rest) i (mkExtScan (-1) 0 (-1) true 0)
  = extnameLoop rest (i - 1) (mkExtScan (-1) 0 (i + 1) false 0).
Proof.
  intros H. apply nameCode_spec in H as (H1 & H2).
  cbn [extnameLoop]. rewrite H1.
  cbn [end_ startDot startPart matchedSlash preDotState Z.eqb].
  now rewrite H2.
Qed.

(** The other characters after the dot change nothing. *)
Lemma extnameLoop_name (codes rest : list ascii) (i e : Z) :
  forallb nameCode codes = true -> e <> (-1)%Z ->
  extnameLoop (codes ++ rest) i (mkExtScan (-1) 0 e false 0)
  = extnameLoop rest (i - Z.of_nat (List.length codes))
      (mkExtScan (-1) 0 e false 0).
Proof.
  revert i. induction codes as [|c codes IH]; intros i H He.
  - cbn [app List.length Z.of_nat]. now rewrite Z.sub_0_r.
  - cbn [forallb] in H. apply andb_true_iff in H as (Hc & H).
    apply nameCode_spec in Hc as (H1 & H2).
    cbn [app extnameLoop]. rewrite H1.
    cbn [end_ startDot startPart matchedSlash preDotState].
    apply Z.eqb_neq in He. rewrite He, H2.
    cbn [end_ startDot startPart matchedSlash preDotState Z.eqb negb].
    rewrite IH by (try apply Z.eqb_neq; assumption).
    f_equal. cbn [List.length]. lia.
Qed.

(** The dot: it fixes [startDot]. *)
Lemma extnameLoop_dot (rest : list ascii) (i e : Z) :
  e <> (-1)%Z ->
  extnameLoop ("."%char :: rest) i (mkExtScan (-1) 0 e false 0)
  = extnameLoop rest (i - 1) (mkExtScan i 0 e false 0).
Proof.
  intros He. cbn [extnameLoop isPosixPathSeparator Ascii.eqb Bool.eqb].
  cbn [end_ startDot startPart matchedSlash preDotState andb].
  apply Z.eqb_neq in He. now rewrite He.
Qed.

(** Whatever comes before a dot that has a character in front of it
    leaves [startDot] and [end] alone and [preDotState] non-zero. *)
Lemma extnameLoop_before (codes : list ascii) (i d p e s : Z) :
  d <> (-1)%Z -> e <> (-1)%Z -> s <> 0%Z ->
  exists p' s',
    extnameLoop codes i (mkExtScan d p e false s)
    = mkExtScan d p' e false s' /\ s' <> 0%Z.
Proof.
  revert i p s. induction codes as [|c codes IH]; intros i p s Hd He Hs.
  - now exists p, s.
  - cbn [extnameLoop].
    cbn [end_ startDot startPart matchedSlash preDotState negb].
    destruct (isPosixPathSeparator c); [now exists (i + 1)%Z, s|].
    pose proof He as He'. apply Z.eqb_neq in He'. rewrite He'.
    cbn [end_ startDot startPart matchedSlash preDotState].
    pose proof Hd as Hd'. apply Z.eqb_neq in Hd'. rewrite Hd'.
    cbn [negb].
    destruct (Ascii.eqb c "."); [destruct (Z.eqb_spec s 1)|];
      cbn [negb]; apply IH; lia.
Qed.

(** The character in front of the dot. *)
Lemma extnameLoop_predot (c : ascii) (codes : list ascii) (i d e : Z) :
  isPosixPathSeparator c = false -> d <> (-1)%Z -> e <> (-1)%Z ->
  exists p' s',
    extnameLoop (c :: codes) i (mkExtScan d 0 e false 0)
    = mkExtScan d p' e false s' /\ s' <> 0%Z.
Proof.
  intros Hc Hd He. cbn [extnameLoop]. rewrite Hc.
  cbn [end_ startDot startPart matchedSlash preDotState negb].
  pose proof He as He'. apply Z.eqb_neq in He'. rewrite He'.
  cbn [end_ startDot startPart matchedSlash preDotState].
  pose proof Hd as Hd'. apply Z.eqb_neq in Hd'. rewrite Hd'.
  cbn [negb Z.eqb].
  destruct (Ascii.eqb c "."); apply extnameLoop_before; lia.
Qed.

(** A path that ends in a character other than the separator, a dot,
    and a non-empty name has that dot and name as its extension. *)
Theorem extname_suffix (prefix : string) (c : ascii) (name : string) :
  isPosixPathSeparator c = false ->
  name <> "" ->
  forallb nameCode (list_ascii_of_string name) = true ->
  extname (prefix ++ String c (String "." name)) = String "." name.
Proof.
  intros Hc Hname Hcodes. unfold extname.
  set (path := prefix ++ String c (String "." name)).
  set (n := Z.of_nat (String.length prefix)).
  set (k := Z.of_nat (String.length name)).
  assert (Hk : (0 < k)%Z) by (destruct name; [congruence | subst k; cbn; lia]).
  assert (Hn : (0 <= n)%Z) by (subst n; lia).
  assert (Hlen : Z.of_nat (String.length path) = (n + 2 + k)%Z).
  { subst path n k. rewrite length_append. cbn [String.length]. lia. }
  assert (Hrev : rev (list_ascii_of_string path)
                 = (rev (list_ascii_of_string name)
                    ++ "."%char :: c :: rev (list_ascii_of_string prefix))%list).
  { subst path. rewrite list_ascii_of_string_append.
    cbn [list_ascii_of_string]. rewrite rev_app_distr. cbn [rev].
    now rewrite <- !app_assoc. }
  rewrite Hrev, Hlen.
  assert (Hscan : exists p' s',
    extnameLoop
      (rev (list_ascii_of_string name)
       ++ "."%char :: c :: rev (list_ascii_of_string prefix))%list
      (n + 2 + k - 1) (mkExtScan (-1) 0 (-1) true 0)
    = mkExtScan (n + 1) p' (n + 2 + k) false s' /\ s' <> 0%Z).
  { assert (Hf : forallb nameCode (rev (list_ascii_of_string name)) = true).
    { rewrite forallb_forall in *. intros x Hx. apply Hcodes.
      now apply in_rev. }
    assert (Hl : List.length (rev (list_ascii_of_string name)) = Z.to_nat k).
    { rewrite length_rev, length_list_ascii. subst k. lia. }
    destruct (rev (list_ascii_of_string name)) as [|c0 codes] eqn:E.
    { cbn in Hl. lia. }
    cbn [forallb] in Hf. apply andb_true_iff in Hf as (Hc0 & Hf).
    cbn [app]. rewrite extnameLoop_last by assumption.
    rewrite extnameLoop_name by (try assumption; lia).
    rewrite extnameLoop_dot by lia.
    cbn [List.length] in Hl.
    replace (n + 2 + k - 1 - 1 - Z.of_nat (List.length codes))%Z
      with (n + 1)%Z by lia.
    replace (n + 2 + k - 1 + 1)%Z with (n + 2 + k)%Z by lia.
    apply extnameLoop_predot; [assumption | lia | lia]. }
  destruct Hscan as (p' & s' & -> & Hs').
  cbn [end_ startDot startPart matchedSlash preDotState].
  replace (n + 1 =? -1)%Z with false by (symmetry; apply Z.eqb_neq; lia).
  replace (n + 2 + k =? -1)%Z with false by (symmetry; apply Z.eqb_neq; lia).
  replace (s' =? 0)%Z with false by (symmetry; now apply Z.eqb_neq).
  replace (n + 1 =? n + 2 + k - 1)%Z with false
    by (symmetry; apply Z.eqb_neq; lia).
  rewrite andb_false_r. cbn [orb andb].
  unfold JS.slice, JS.clamp. rewrite Hlen.
  replace (n + 1 <? 0)%Z with false by (symmetry; apply Z.ltb_ge; lia).
  replace (n + 2 + k <? 0)%Z with false by (symmetry; apply Z.ltb_ge; lia).
  rewrite !Z.min_l by lia.
  replace (Z.to_nat (n + 1)) with (String.length (prefix ++ String c ""))
    by (rewrite length_append; cbn [String.length]; subst n; lia).
  replace (Z.to_nat (n + 2 + k - (n + 1)))
    with (String.length (String "." name))
    by (cbn [String.length]; subst k; lia).
  subst path.
  replace (prefix ++ String c (String "." name))
    with ((prefix ++ String c "") ++ String "." name)
    by (now rewrite append_assoc).
  now rewrite drop_append, take_all.
Qed.

(** ** The extension [extname] returns is empty or starts with a dot *)

Lemma string_of_list_ascii_app (l1 l2 : list ascii) :
  string_of_list_ascii (l1 ++ l2)
  = string_of_list_ascii l1 ++ string_of_list_ascii l2.
Proof. induction l1; simpl; congruence. Qed.

Lemma get_append_here (a : string) (c : ascii) (b : string) :
  String.get (String.length a) (a ++ String c b) = Some c.
Proof. induction a; [reflexivity | assumption]. Qed.

Lemma drop_get (n : nat) (p : string) (c : ascii) :
  String.get n p = Some c -> exists r, JS.drop n p = String c r.
Proof.
  revert p. induction n as [|n IH]; intros [|c0 p] H; try discriminate.
  - inversion H; subst. now exists p.
  - now apply IH.
Qed.

Lemma take_head (k : nat) (c : ascii) (r : string) :
  JS.take k (String c r) = "" \/ exists r', JS.take k (String c r) = String c r'.
Proof. destruct k; [now left | right; now eexists]. Qed.

Lemma extnameLoop_dotAt (codes : list ascii) (suffix : string) (s : ExtScan) :
  dotAt (string_of_list_ascii (rev codes) ++ suffix) s ->
  dotAt (string_of_list_ascii (rev codes) ++ suffix)
        (extnameLoop codes (Z.of_nat (List.length codes) - 1) s).
Proof.
  revert suffix s. induction codes as [|c codes IH]; intros suffix s H;
    [exact H|].
  assert (Hp : string_of_list_ascii (rev (c :: codes)) ++ suffix
               = string_of_list_ascii (rev codes) ++ String c suffix).
  { cbn [rev]. rewrite string_of_list_ascii_app, append_assoc. reflexivity. }
  assert (Hget : String.get (List.length codes)
                   (string_of_list_ascii (rev codes) ++ String c suffix)
                 = Some c).
  { replace (List.length codes)
      with (String.length (string_of_list_ascii (rev codes))).
    - apply get_append_here.
    - rewrite <- length_list_ascii, list_ascii_of_string_of_list_ascii.
      apply length_rev. }
  rewrite Hp in *. clear Hp.
  cbn [extnameLoop].
  replace (Z.of_nat (List.length (c :: codes)) - 1 - 1)%Z
    with (Z.of_nat (List.length codes) - 1)%Z by (cbn [List.length]; lia).
  replace (Z.of_nat (List.length (c :: codes)) - 1)%Z
    with (Z.of_nat (List.length codes)) by (cbn [List.length]; lia).
  destruct (isPosixPathSeparator c).
  - destruct (negb (matchedSlash s)); [exact H | now apply IH].
  - apply IH.
    destruct (end_ s =? -1)%Z;
      cbn [end_ startDot startPart matchedSlash preDotState];
      (destruct (Ascii.eqb_spec c "."%char) as [-> | _];
       [ destruct (startDot s =? -1)%Z eqn:E;
         [ right; cbn [startDot]; split; [lia | now rewrite Nat2Z.id]
         | destruct (negb (preDotState s =? 1)%Z); exact H ]
       | destruct (negb (startDot s =? -1)%Z); exact H ]).
Qed.

Theorem extname_empty_or_dot (p : string) :
  extname p = "" \/ exists rest, extname p = String "." rest.
Proof.
  unfold extname.
  pose proof (extnameLoop_dotAt (rev (list_ascii_of_string p)) ""
                (mkExtScan (-1) 0 (-1) true 0) (or_introl eq_refl)) as H.
  rewrite rev_involutive, string_of_list_ascii_of_string, append_empty_r in H.
  rewrite length_rev, length_list_ascii in H.
  set (s := extnameLoop _ _ _) in *.
  destruct H as [H | (H0 & H)].
  - rewrite H. now left.
  - destruct ((startDot s =? -1)%Z || (end_ s =? -1)%Z
              || (preDotState s =? 0)%Z
              || (preDotState s =? 1)%Z && (startDot s =? end_ s - 1)%Z
                 && (startDot s =? startPart s + 1)%Z); [now left|].
    unfold JS.slice, JS.clamp.
    assert (Hlt : (startDot s < Z.of_nat (String.length p))%Z).
    { destruct (Z.to_nat (startDot s) <? String.length p)%nat eqn:E.
      - apply Nat.ltb_lt in E. lia.
      - apply Nat.ltb_ge in E.
        assert (G : String.get (Z.to_nat (startDot s)) p = None).
        { clear - E. revert E. generalize (Z.to_nat (startDot s)).
          induction p as [|c p IH]; intros [|n] E; try reflexivity.
          - cbn in E. lia.
          - cbn in *. apply IH. lia. }
        congruence. }
    replace (startDot s <? 0)%Z with false by (symmetry; apply Z.ltb_ge; lia).
    rewrite (Z.min_l (startDot s)) by lia.
    destruct (drop_get _ _ _ H) as (r & ->).
    destruct (take_head
                (Z.to_nat
                   ((if (end_ s <? 0)%Z
                     then Z.max (Z.of_nat (String.length p) + end_ s) 0
                     else Z.min (end_ s) (Z.of_nat (String.length p)))
                    - startDot s)) "."%char r) as [-> | (r' & ->)];
      [now left | right; now eexists].
Qed.

End PathFacts.

(** The model on the examples of Node's documentation of [path]. *)

Example node_extname :
  map Path.extname
      ["index.html"; "index.coffee.md"; "index."; "index"; ".index";
       ".index.md"]
  = [".html"; ".md"; "."; ""; ""; ".md"].
Proof. reflexivity. Qed.

Example node_join :
  Path.join ["/foo"; "bar"; "baz/asdf"; "quux"; ".."] = "/foo/bar/baz/asdf".
Proof. reflexivity. Qed.

Example node_normalize :
  Path.normalize "/foo/bar//baz/asdf/quux/.." = "/foo/bar/baz/asdf".
Proof. reflexivity. Qed.

Example node_resolve :
  Path.resolve "/home/myself/node" ["/foo/bar"; "./baz"] = "/foo/bar/baz"
  /\ Path.resolve "/home/myself/node" ["/foo/bar"; "/tmp/file/"] = "/tmp/file"
  /\ Path.resolve "/home/myself/node"
                  ["wwwroot"; "static_files/png/"; "../gif/image.gif"]
     = "/home/myself/node/wwwroot/static_files/gif/image.gif".
Proof. repeat split; reflexivity. Qed.

Example node_relative :
  Path.relative "/home/myself/node"
                "/data/orandea/test/aaa" "/data/orandea/impl/bbb"
  = "../../impl/bbb".
Proof. reflexivity. Qed.

(* ------------------------------------------------------------------ *)
(** * Running the methods *)

Section Runs.

Variable st : Store.

Let root : string := rootDir (this st).
Let target : string := compileTarget (this st).
Let wd : string := cwd (host st).

Lemma bind_normal {A B : Type} (m : M A) (k : A -> M B) (a : A) :
  m st = (Normal a, st) -> bind m k st = k a st.
Proof. intros H. unfold bind. now rewrite H. Qed.

Lemma bind_throw {A B : Type} (m : M A) (k : A -> M B) (e : string) :
  m st = (Throw e, st) -> bind m k st = (Throw e, st).
Proof. intros H. unfold bind. now rewrite H. Qed.

Lemma test_script_path_join :
  Path.join ["third_party"; "blink"; "tools"; "run_web_tests.py"]
  = "third_party/blink/tools/run_web_tests.py".
Proof. reflexivity. Qed.

Lemma test_script_path_array_join :
  JS.join Path.sep ["third_party"; "blink"; "tools"; "run_web_tests.py"]
  = "third_party/blink/tools/run_web_tests.py".
Proof. reflexivity. Qed.

(** The extension test of [getWebTestCommand], as a proposition. *)
Lemma includes_web_test_extension (ext : string) :
  JS.includes [".html"; ".php"] ext = true
  <-> ext = ".html" \/ ext = ".php".
Proof.
  unfold JS.includes. simpl. rewrite !orb_true_iff, !String.eqb_eq.
  intuition congruence.
Qed.

Lemma getCompileCommand_run (target_binary : string) :
  getCompileCommand target_binary st
  = (Normal ("autoninja -C out/" ++ target ++ " " ++ target_binary), st).
Proof. reflexivity. Qed.

Lemma getWebTestCommand_accepts (file_path : string) :
  JS.includes [".html"; ".php"] (Path.extname file_path) = true ->
  getWebTestCommand file_path st
  = (Normal ("third_party/blink/tools/run_web_tests.py -t " ++ target ++ " "
             ++ Path.relative wd
                  (Path.join [root; "third_party"; "blink"; "web_tests"])
                  file_path),
     st).
Proof.
  intros H. unfold getWebTestCommand. rewrite H. cbn [negb].
  rewrite test_script_path_join. reflexivity.
Qed.

Lemma getWebTestCommand_rejects (file_path : string) :
  JS.includes [".html"; ".php"] (Path.extname file_path) = false ->
  getWebTestCommand file_path st
  = (Throw ("Wrong extension(" ++ Path.extname file_path
            ++ ") for web test. Expect .html or .php."),
     st).
Proof.
  intros H. unfold getWebTestCommand. now rewrite H.
Qed.

Lemma Rev1_getWebTestCommand_same (file_path : string) :
  Rev1.getWebTestCommand file_path st = getWebTestCommand file_path st.
Proof. reflexivity. Qed.

Lemma Rev0_getWebTestCommand_run (file_path : string) :
  Rev0.getWebTestCommand file_path st
  = (Normal ("third_party/blink/tools/run_web_tests.py -t " ++ target ++ " "
             ++ Path.relative wd
                  (JS.join Path.sep
                           [root; "third_party"; "blink"; "web_tests"])
                  file_path),
     st).
Proof.
  unfold Rev0.getWebTestCommand.
  rewrite test_script_path_array_join. reflexivity.
Qed.

Lemma getCppTestCommand_run (test_executable test_name : string) :
  getCppTestCommand test_executable test_name st
  = (Normal (Path.join [root; "out"; target; test_executable]
             ++ " --gtest_filter=" ++ test_name),
     st).
Proof. reflexivity. Qed.

Lemma getCurrentFilePath_run :
  getCurrentFilePath st
  = (match activeTextEditor (host st) with
     | Some fileName => Normal fileName
     | None => Throw "No active editor"
     end, st).
Proof.
  unfold getCurrentFilePath. now destruct (activeTextEditor (host st)).
Qed.

(** A method only reads the store. *)
Lemma getWebTestCommand_final (file_path : string) :
  final (getWebTestCommand file_path) st = st.
Proof.
  unfold final.
  destruct (JS.includes [".html"; ".php"] (Path.extname file_path)) eqn:E.
  - now rewrite getWebTestCommand_accepts.
  - now rewrite getWebTestCommand_rejects.
Qed.

Lemma getTestCommand_final : final getTestCommand st = st.
Proof.
  unfold final, getTestCommand.
  rewrite (bind_normal _ _ _ (getCompileCommand_run "content_shell")).
  cbv beta. unfold bind at 1. rewrite getCurrentFilePath_run.
  destruct (activeTextEditor (host st)) as [fileName|]; [|reflexivity].
  pose proof (getWebTestCommand_final fileName) as F. unfold final in F.
  unfold bind.
  destruct (getWebTestCommand fileName st) as [[w|e] st'];
    simpl in F; now subst.
Qed.

End Runs.

(* ------------------------------------------------------------------ *)
(** * The web test command *)

Section WebTestCommand.

Variable st : Store.
Variable file_path : string.

Lemma web_test_extension_accepted :
  Path.extname file_path = ".html" \/ Path.extname file_path = ".php" ->
  JS.includes [".html"; ".php"] (Path.extname file_path) = true.
Proof. apply includes_web_test_extension. Qed.

Lemma web_test_extension_rejected :
  Path.extname file_path <> ".html" /\ Path.extname file_path <> ".php" ->
  JS.includes [".html"; ".php"] (Path.extname file_path) = false.
Proof.
  intros (H1 & H2).
  destruct (JS.includes [".html"; ".php"] (Path.extname file_path)) eqn:E;
    [|reflexivity].
  apply includes_web_test_extension in E. tauto.
Qed.

(** With a directory that is not the empty string, [path.join] and
    [array.join] name the same place: the first is the second,
    normalized. *)
Lemma web_test_path_resolved (wd root : string) :
  root <> "" ->
  Path.resolve wd [Path.join [root; "third_party"; "blink"; "web_tests"]]
  = Path.resolve wd
      [JS.join Path.sep [root; "third_party"; "blink"; "web_tests"]].
Proof.
  intros Hroot.
  rewrite PathFacts.join_directory by (try discriminate; assumption).
  apply PathFacts.resolve_normalize.
  now apply PathFacts.array_join_directory_nonempty.
Qed.

Lemma web_test_path_relative (wd root : string) :
  root <> "" ->
  Path.relative wd (Path.join [root; "third_party"; "blink"; "web_tests"])
                file_path
  = Path.relative wd
      (JS.join Path.sep [root; "third_party"; "blink"; "web_tests"])
      file_path.
Proof.
  intros Hroot. apply PathFacts.relative_resolved; [|reflexivity].
  now apply web_test_path_resolved.
Qed.

(** From an absolute directory to an absolute file, the relative path is
    the same in every working directory. *)
Lemma web_test_path_absolute (wd wd' root : string) :
  Path.isAbsolute root = true -> Path.isAbsolute file_path = true ->
  Path.relative wd (Path.join [root; "third_party"; "blink"; "web_tests"])
                file_path
  = Path.relative wd' (Path.join [root; "third_party"; "blink"; "web_tests"])
                  file_path.
Proof.
  intros Hroot Hfile.
  assert (Hne : root <> "") by (intros ->; discriminate).
  apply PathFacts.relative_resolved;
    [|now apply PathFacts.resolve_absolute].
  apply PathFacts.resolve_absolute.
  rewrite PathFacts.join_directory by (try discriminate; assumption).
  destruct (PathFacts.normalize_segments
              (JS.join "/" [root; "third_party"; "blink"; "web_tests"]))
    as (_ & -> & _).
  - now apply PathFacts.array_join_directory_nonempty.
  - now rewrite PathFacts.array_join_directory_absolute.
Qed.

End WebTestCommand.

(* ------------------------------------------------------------------ *)
(** * Properties of the command construction *)

(** C4: for every manager and every target binary name,
    [getCompileCommand] returns exactly
    ["autoninja -C out/<compileTarget> <target_binary>"]. *)
Theorem getCompileCommand_string (st : Store) (target_binary : string) :
  result (getCompileCommand target_binary) st
  = Normal ("autoninja -C out/" ++ compileTarget (this st) ++ " "
            ++ target_binary).
Proof. unfold result. now rewrite getCompileCommand_run. Qed.

(** C5: for every manager, test executable and test name,
    [getCppTestCommand] returns ["<p> --gtest_filter=<test_name>"], where
    [<p>] is the path join of [rootDir], ["out"], [compileTarget] and the
    executable; it completes normally on every input. *)
Theorem getCppTestCommand_string
        (st : Store) (test_executable test_name : string) :
  result (getCppTestCommand test_executable test_name) st
  = Normal (Path.join [rootDir (this st); "out"; compileTarget (this st);
                       test_executable]
            ++ " --gtest_filter=" ++ test_name).
Proof. unfold result. now rewrite getCppTestCommand_run. Qed.

(** C10: [getBrowserTestCommand] (revisions [part_000] and [part_002])
    returns the empty string for every manager and file path, and never
    throws. *)
Theorem getBrowserTestCommand_empty (st : Store) (file_path : string) :
  result (Rev0.getBrowserTestCommand file_path) st = Normal ""
  /\ result (Rev2.getBrowserTestCommand file_path) st = Normal "".
Proof. split; reflexivity. Qed.

(** C1: for every manager and every file path whose extension is [.html]
    or [.php], [getWebTestCommand] (in [src/extension.ts] and in
    [part_001]) returns
    ["third_party/blink/tools/run_web_tests.py -t <compileTarget> <test_path>"],
    where [<test_path>] is the relative path from the join of [rootDir],
    ["third_party"], ["blink"], ["web_tests"] to the file; when [rootDir] is
    not the empty string that directory is the string
    [rootDir/third_party/blink/web_tests]. *)
Theorem getWebTestCommand_command (st : Store) (file_path : string) :
  Path.extname file_path = ".html" \/ Path.extname file_path = ".php" ->
  let test_path :=
    Path.relative (cwd (host st))
      (Path.join [rootDir (this st); "third_party"; "blink"; "web_tests"])
      file_path in
  let command :=
    "third_party/blink/tools/run_web_tests.py -t " ++ compileTarget (this st)
    ++ " " ++ test_path in
  result (getWebTestCommand file_path) st = Normal command
  /\ result (Rev1.getWebTestCommand file_path) st = Normal command
  /\ (rootDir (this st) <> "" ->
      test_path
      = Path.relative (cwd (host st))
          (rootDir (this st) ++ "/third_party/blink/web_tests") file_path).
Proof.
  intros Hext test_path command.
  apply web_test_extension_accepted in Hext.
  repeat split.
  - unfold result. now rewrite getWebTestCommand_accepts.
  - unfold result.
    now rewrite Rev1_getWebTestCommand_same, getWebTestCommand_accepts.
  - intros Hroot. subst test_path.
    now rewrite web_test_path_relative.
Qed.

Lemma getWebTestCommand_command_witness :
  result
    (getWebTestCommand
       "/home/dev/chromium/src/third_party/blink/web_tests/fast/dom/title.html")
    checkoutStore
  = Normal
      "third_party/blink/tools/run_web_tests.py -t Default fast/dom/title.html".
Proof.
  exact (proj1 (getWebTestCommand_command checkoutStore
    "/home/dev/chromium/src/third_party/blink/web_tests/fast/dom/title.html"
    (or_introl eq_refl))).
Defined.

(** C3: for every manager whose current file has a valid web-test
    extension, [getTestCommand] (the method of [src/extension.ts] and the
    closure of [part_001]) is [getCompileCommand("content_shell")], then
    [" && "], then [getWebTestCommand] of the current file's path. *)
Theorem getTestCommand_concat (st : Store) (file_path : string) :
  activeTextEditor (host st) = Some file_path ->
  Path.extname file_path = ".html" \/ Path.extname file_path = ".php" ->
  exists compile web_test,
    result (getCompileCommand "content_shell") st = Normal compile
    /\ result (getWebTestCommand file_path) st = Normal web_test
    /\ result getTestCommand st = Normal (compile ++ " && " ++ web_test)
    /\ result Rev1.getTestCommand st = Normal (compile ++ " && " ++ web_test).
Proof.
  intros Hfile Hext. apply web_test_extension_accepted in Hext.
  pose proof (getWebTestCommand_accepts st file_path Hext) as Hweb.
  eexists. eexists. unfold result.
  split; [now rewrite getCompileCommand_run|].
  split; [now rewrite Hweb|].
  assert (Hcur : getCurrentFilePath st = (Normal file_path, st))
    by (now rewrite getCurrentFilePath_run, Hfile).
  split.
  - unfold getTestCommand.
    rewrite (bind_normal st _ _ _ (getCompileCommand_run st "content_shell")).
    rewrite (bind_normal st _ _ _ Hcur).
    now rewrite (bind_normal st _ _ _ Hweb).
  - unfold Rev1.getTestCommand.
    rewrite (bind_normal st _ _ _ (getCompileCommand_run st "content_shell")).
    rewrite (bind_normal st _ _ _ Hcur).
    now rewrite (bind_normal st _ _ _ Hweb).
Qed.

Lemma getTestCommand_concat_witness :
  exists compile web_test,
    result (getCompileCommand "content_shell") checkoutStore = Normal compile
    /\ result
         (getWebTestCommand
            "/home/dev/chromium/src/third_party/blink/web_tests/fast/dom/title.html")
         checkoutStore
       = Normal web_test
    /\ result getTestCommand checkoutStore
       = Normal (compile ++ " && " ++ web_test)
    /\ result Rev1.getTestCommand checkoutStore
       = Normal (compile ++ " && " ++ web_test).
Proof.
  apply (getTestCommand_concat checkoutStore
    "/home/dev/chromium/src/third_party/blink/web_tests/fast/dom/title.html").
  - reflexivity.
  - left. reflexivity.
Defined.

(** C6: a manager's state is its two string fields [rootDir] and
    [compileTarget], and [getCompileCommand], [getWebTestCommand],
    [getCppTestCommand] and [getTestCommand] leave both as they were,
    whether they return a command or throw. *)
Theorem methods_preserve_fields :
  (forall m : ChromiumTestManager,
      m = mkChromiumTestManager (rootDir m) (compileTarget m))
  /\ forall (st : Store) (target_binary file_path : string)
            (test_executable test_name : string),
      preservesFields (getCompileCommand target_binary) st
      /\ preservesFields (getWebTestCommand file_path) st
      /\ preservesFields (getCppTestCommand test_executable test_name) st
      /\ preservesFields getTestCommand st.
Proof.
  split; [now intros []|].
  intros st target_binary file_path test_executable test_name.
  unfold preservesFields.
  rewrite getWebTestCommand_final, getTestCommand_final.
  repeat split; reflexivity.
Qed.

(** C8: a command wrapped by [wrapException] ([src/extension.ts]) or
    [wrap_exception] ([part_001]) returns normally whatever the inner
    command does, and when the inner command throws [e], [e] is shown
    through [log] in a message that starts with ["vscode-chromium-test"]. *)
Theorem wrapException_returns (f : Command) (st : Store) :
  result (wrapException f) st = Normal tt
  /\ result (Rev1.wrap_exception f) st = Normal tt
  /\ forall (e : string) (st' : Store),
      f st = (Throw e, st') ->
      informationMessages (host (final (wrapException f) st))
      = (informationMessages (host st')
         ++ [("vscode-chromium-test error: " ++ e)%string])%list
      /\ informationMessages (host (final (Rev1.wrap_exception f) st))
         = (informationMessages (host st')
            ++ [("vscode-chromium-test: " ++ e)%string])%list
      /\ String.prefix "vscode-chromium-test"
           ("vscode-chromium-test error: " ++ e) = true
      /\ String.prefix "vscode-chromium-test"
           ("vscode-chromium-test: " ++ e) = true.
Proof.
  unfold result, final, wrapException, Rev1.wrap_exception, tryCatch, bind.
  destruct (f st) as [[[]|e0] st0] eqn:E; cbn.
  - repeat split; intros; discriminate.
  - repeat split; inversion H; subst; reflexivity.
Qed.

Lemma wrapException_returns_witness :
  result (wrapException (throwingCommand "No active editor")) checkoutStore
  = Normal tt
  /\ informationMessages
       (host (final (wrapException (throwingCommand "No active editor"))
                    checkoutStore))
     = ["vscode-chromium-test error: No active editor"].
Proof.
  split.
  - exact (proj1 (wrapException_returns
                    (throwingCommand "No active editor") checkoutStore)).
  - exact (proj1 (proj2 (proj2 (wrapException_returns
                    (throwingCommand "No active editor") checkoutStore))
                    "No active editor" checkoutStore eq_refl)).
Defined.

(** C9: with a normalized [rootDir] and a file path whose extension is
    [.html] or [.php], the [getWebTestCommand] that joins with [path.join]
    ([src/extension.ts]) and the one that joins with [array.join] on
    [path.sep] ([part_000]) return the same command string. *)
Theorem getWebTestCommand_joins_agree (st : Store) (file_path : string) :
  Path.normalize (rootDir (this st)) = rootDir (this st) ->
  Path.extname file_path = ".html" \/ Path.extname file_path = ".php" ->
  result (getWebTestCommand file_path) st
  = result (Rev0.getWebTestCommand file_path) st.
Proof.
  intros Hroot Hext. apply PathFacts.normalized_nonempty in Hroot.
  apply web_test_extension_accepted in Hext. unfold result.
  rewrite getWebTestCommand_accepts by assumption.
  rewrite Rev0_getWebTestCommand_run. cbn [fst].
  now rewrite web_test_path_relative.
Qed.

Lemma getWebTestCommand_joins_agree_witness :
  result
    (getWebTestCommand
       "/home/dev/chromium/src/third_party/blink/web_tests/fast/dom/title.html")
    checkoutStore
  = result
      (Rev0.getWebTestCommand
         "/home/dev/chromium/src/third_party/blink/web_tests/fast/dom/title.html")
      checkoutStore.
Proof.
  apply (getWebTestCommand_joins_agree checkoutStore
    "/home/dev/chromium/src/third_party/blink/web_tests/fast/dom/title.html").
  - reflexivity.
  - left. reflexivity.
Defined.

(** The hypothesis on [rootDir] is needed: with the empty string,
    [path.join] starts from the working directory and [array.join] from
    the root. *)
Example joins_differ_on_empty_rootDir :
  let st := mkStore (mkChromiumTestManager "" "Default")
                    (mkHost "/home/dev" None []) in
  result (getWebTestCommand "/third_party/blink/web_tests/a.html") st
  = Normal "third_party/blink/tools/run_web_tests.py -t Default ../../../../../third_party/blink/web_tests/a.html"
  /\ result (Rev0.getWebTestCommand "/third_party/blink/web_tests/a.html") st
     = Normal "third_party/blink/tools/run_web_tests.py -t Default a.html".
Proof. split; reflexivity. Qed.

(** C2, as stated, fails: the path below ends in [.html], but its last
    component is a dot file, [path.extname] gives the empty string for it,
    and [getWebTestCommand] throws. *)
Lemma getWebTestCommand_dotfile_throws :
  JS.endsWith "/home/dev/chromium/src/third_party/blink/web_tests/.html"
              ".html" = true
  /\ result
       (getWebTestCommand
          "/home/dev/chromium/src/third_party/blink/web_tests/.html")
       checkoutStore
     = Throw "Wrong extension() for web test. Expect .html or .php.".
Proof. split; reflexivity. Qed.

(** C2, amended: [getWebTestCommand] ([src/extension.ts], [part_001])
    throws exactly when [path.extname] of the file path is neither [.html]
    nor [.php], and returns a command exactly when it is one of them; that
    is the case for every path that ends in [.html] or [.php] after a
    character other than the separator. *)
Theorem getWebTestCommand_throws_iff (st : Store) (file_path : string) :
  ((exists e, result (getWebTestCommand file_path) st = Throw e)
   <-> Path.extname file_path <> ".html" /\ Path.extname file_path <> ".php")
  /\ ((exists command,
          result (getWebTestCommand file_path) st = Normal command)
      <-> Path.extname file_path = ".html" \/ Path.extname file_path = ".php")
  /\ result (Rev1.getWebTestCommand file_path) st
     = result (getWebTestCommand file_path) st
  /\ forall (prefix : string) (c : ascii),
      Path.isPosixPathSeparator c = false ->
      file_path = prefix ++ String c ".html"
      \/ file_path = prefix ++ String c ".php" ->
      exists command,
        result (getWebTestCommand file_path) st = Normal command.
Proof.
  assert (Hiff : (exists command,
                     result (getWebTestCommand file_path) st = Normal command)
                 <-> Path.extname file_path = ".html"
                     \/ Path.extname file_path = ".php").
  { rewrite <- includes_web_test_extension. unfold result.
    destruct (JS.includes [".html"; ".php"] (Path.extname file_path)) eqn:E.
    - rewrite getWebTestCommand_accepts by assumption.
      split; [reflexivity | intros _; eexists; reflexivity].
    - rewrite getWebTestCommand_rejects by assumption.
      split; [intros (command & H); discriminate | discriminate]. }
  split; [|split; [exact Hiff | split]].
  - unfold result.
    destruct (JS.includes [".html"; ".php"] (Path.extname file_path)) eqn:E.
    + rewrite getWebTestCommand_accepts by assumption.
      apply includes_web_test_extension in E.
      split; [intros (e & H); discriminate | tauto].
    + rewrite getWebTestCommand_rejects by assumption.
      split; [|intros _; eexists; reflexivity].
      intros _.
      split; intros H;
        (assert (T : JS.includes [".html"; ".php"] (Path.extname file_path)
                     = true)
          by (apply includes_web_test_extension; tauto));
        congruence.
  - unfold result. now rewrite Rev1_getWebTestCommand_same.
  - intros prefix c Hc Hpath. apply Hiff.
    destruct Hpath as [-> | ->]; [left | right];
      now apply PathFacts.extname_suffix.
Qed.

Lemma getWebTestCommand_throws_iff_witness :
  exists command,
    result
      (getWebTestCommand
         "/home/dev/chromium/src/third_party/blink/web_tests/fast/dom/title.html")
      checkoutStore
    = Normal command.
Proof.
  apply (proj2 (proj2 (proj2 (getWebTestCommand_throws_iff checkoutStore
    "/home/dev/chromium/src/third_party/blink/web_tests/fast/dom/title.html")))
    "/home/dev/chromium/src/third_party/blink/web_tests/fast/dom/titl"
    "e"%char).
  - reflexivity.
  - left. reflexivity.
Defined.

(** The slip of revision [part_002], which the amended C2 leaves out: the
    extension is compared with ["html"] and ["php"], which [path.extname]
    never returns, so every file is refused, a web test with a message
    that asks for the extension it has. *)
Theorem Rev2_getWebTestCommand_always_throws
        (st : Store) (file_path : string) :
  result (Rev2.getWebTestCommand file_path) st
  = Throw ("Wrong extension(" ++ Path.extname file_path
           ++ ") for web test. Expect .html or .php.").
Proof.
  unfold result, Rev2.getWebTestCommand.
  assert (H : JS.includes ["html"; "php"] (Path.extname file_path) = false)
    by (destruct (PathFacts.extname_empty_or_dot file_path)
          as [-> | (rest & ->)]; reflexivity).
  now rewrite H.
Qed.

Example Rev2_getWebTestCommand_refuses_html :
  result
    (Rev2.getWebTestCommand
       "/home/dev/chromium/src/third_party/blink/web_tests/fast/dom/title.html")
    checkoutStore
  = Throw "Wrong extension(.html) for web test. Expect .html or .php.".
Proof. reflexivity. Qed.

(** C7, as stated, fails: the same manager and the same file path give
    two different commands in two working directories, because
    [path.relative] resolves a relative [rootDir] against
    [process.cwd()]. *)
Lemma getWebTestCommand_depends_on_cwd :
  this (relativeStore "/") = this (relativeStore "/home/dev")
  /\ result
       (getWebTestCommand "/src/third_party/blink/web_tests/fast/a.html")
       (relativeStore "/")
     = Normal "third_party/blink/tools/run_web_tests.py -t Default fast/a.html"
  /\ result
       (getWebTestCommand "/src/third_party/blink/web_tests/fast/a.html")
       (relativeStore "/home/dev")
     = Normal "third_party/blink/tools/run_web_tests.py -t Default ../../../../../../src/third_party/blink/web_tests/fast/a.html".
Proof. repeat split; reflexivity. Qed.

(** C7, amended: for two managers with equal [rootDir] and equal
    [compileTarget] and equal inputs, [getCompileCommand] and
    [getCppTestCommand] give equal results whatever the hosts are, and
    [getWebTestCommand] gives equal results (equal commands, or the same
    thrown value) when the two processes have the same working directory or
    when [rootDir] and the file path are both absolute. *)
Theorem commands_determined (st1 st2 : Store) :
  rootDir (this st1) = rootDir (this st2) ->
  compileTarget (this st1) = compileTarget (this st2) ->
  (forall target_binary,
      result (getCompileCommand target_binary) st1
      = result (getCompileCommand target_binary) st2)
  /\ (forall test_executable test_name,
         result (getCppTestCommand test_executable test_name) st1
         = result (getCppTestCommand test_executable test_name) st2)
  /\ (forall file_path,
         cwd (host st1) = cwd (host st2)
         \/ (Path.isAbsolute (rootDir (this st1)) = true
             /\ Path.isAbsolute file_path = true) ->
         result (getWebTestCommand file_path) st1
         = result (getWebTestCommand file_path) st2).
Proof.
  intros Hroot Htarget. unfold result. repeat split.
  - intros target_binary. now rewrite !getCompileCommand_run, Htarget.
  - intros test_executable test_name.
    now rewrite !getCppTestCommand_run, Hroot, Htarget.
  - intros file_path H.
    destruct (JS.includes [".html"; ".php"] (Path.extname file_path)) eqn:E.
    + rewrite !getWebTestCommand_accepts by assumption. cbn [fst].
      rewrite <- Hroot, <- Htarget.
      destruct H as [-> | (Habs & Hfile)]; [reflexivity|].
      now rewrite (web_test_path_absolute file_path (cwd (host st1))
                     (cwd (host st2))).
    + now rewrite !getWebTestCommand_rejects by assumption.
Qed.

Lemma commands_determined_witness :
  result
    (getWebTestCommand
       "/home/dev/chromium/src/third_party/blink/web_tests/fast/dom/title.html")
    checkoutStore
  = result
      (getWebTestCommand
         "/home/dev/chromium/src/third_party/blink/web_tests/fast/dom/title.html")
      (mkStore (this checkoutStore)
               (mkHost "/tmp" None ["an earlier message"])).
Proof.
  apply (proj2 (proj2 (commands_determined checkoutStore
    (mkStore (this checkoutStore) (mkHost "/tmp" None ["an earlier message"]))
    eq_refl eq_refl))).
  right. split; reflexivity.
Defined.

(* ------------------------------------------------------------------ *)
(** * More facts about the [path] model: paths below a directory *)

Module PathBelow.
Import Path PathFacts.

Lemma noSeparator_codes (s : string) :
  forallb (fun c => negb (isPosixPathSeparator c)) (list_ascii_of_string s)
  = true ->
  noSeparator s.
Proof.
  unfold noSeparator. induction s as [|c s IH]; [reflexivity|].
  cbn [list_ascii_of_string forallb segments]. intros H.
  apply andb_true_iff in H as (Hc & H). apply negb_true_iff in Hc.
  now rewrite Hc, IH.
Qed.

Lemma isNameSegment_spec (s : string) :
  isNameSegment s = true -> nameSegment s.
Proof.
  unfold isNameSegment. rewrite !andb_true_iff, !negb_true_iff.
  intros (((H1 & H2) & H3) & H4). apply String.eqb_neq in H1, H2, H3.
  repeat split; try assumption. now apply noSeparator_codes.
Qed.

Lemma isNameSegments_spec (names : list string) :
  forallb isNameSegment names = true -> Forall nameSegment names.
Proof.
  rewrite forallb_forall, Forall_forall. intros H s Hs.
  apply isNameSegment_spec. now apply H.
Qed.

Lemma nameSegment_kept (l : list string) :
  Forall nameSegment l -> Forall keptSegment l.
Proof. apply Forall_impl. now intros s (H & _). Qed.

(** ** Characters of a string and of its extensions *)

Lemma get_some (n : nat) (s : string) :
  (n < String.length s)%nat -> exists c, String.get n s = Some c.
Proof.
  revert n. induction s as [|c s IH]; intros n H; [cbn in H; lia|].
  destruct n as [|n]; [now exists c|]. apply IH. cbn in H. lia.
Qed.

Lemma get_append_left (n : nat) (a b : string) :
  (n < String.length a)%nat -> String.get n (a ++ b) = String.get n a.
Proof.
  revert n. induction a as [|c a IH]; intros n H; [cbn in H; lia|].
  destruct n as [|n]; [reflexivity|]. apply IH. cbn in H. lia.
Qed.

Lemma sliceFrom_append (a b : string) :
  JS.sliceFrom (a ++ b) (Z.of_nat (String.length a)) = b.
Proof.
  unfold JS.sliceFrom, JS.slice, JS.clamp. rewrite length_append.
  replace (Z.of_nat (String.length a) <? 0)%Z with false
    by (symmetry; apply Z.ltb_ge; lia).
  replace (Z.of_nat (String.length a + String.length b) <? 0)%Z with false
    by (symmetry; apply Z.ltb_ge; lia).
  rewrite !Z.min_l by lia. rewrite Nat2Z.id, drop_append.
  replace (Z.to_nat _) with (String.length b) by lia.
  apply take_all.
Qed.

Lemma append_longer (a b : string) : b <> "" -> a <> a ++ b.
Proof.
  intros Hb H. apply (f_equal String.length) in H.
  rewrite length_append in H. destruct b; [congruence | cbn in H; lia].
Qed.

(** ** [relative] from a directory to a path below it *)

(** The first loop runs through a common prefix to its end. *)
Lemma commonLoop_prefix (F rest : string) (n : nat) (i lcs : Z) :
  (0 <= i)%Z -> (Z.to_nat i + n + 1 <= String.length F)%nat ->
  exists lcs',
    commonLoop F (F ++ rest) 1 1 n i lcs = ((i + Z.of_nat n)%Z, lcs').
Proof.
  revert i lcs. induction n as [|n IH]; intros i lcs Hi Hn.
  - exists lcs. cbn [commonLoop Z.of_nat]. now rewrite Z.add_0_r.
  - cbn [commonLoop]. unfold JS.charCodeAt.
    replace (1 + i <? 0)%Z with false by (symmetry; apply Z.ltb_ge; lia).
    assert (Hlt : (Z.to_nat (1 + i) < String.length F)%nat) by lia.
    rewrite (get_append_left _ F rest Hlt).
    destruct (get_some _ _ Hlt) as (c & ->).
    cbn [sameCode]. rewrite Ascii.eqb_refl. cbn [negb].
    destruct (IH (i + 1)%Z (if isSlashCode (Some c) then i else lcs))
      as (lcs' & ->); [lia | lia |].
    exists lcs'. f_equal. lia.
Qed.

(** From a directory that resolves to [F] to a path that resolves to
    [F/t], the relative path is [t]. *)
Lemma relative_below (wd from to F t : string) :
  resolve wd [from] = F -> resolve wd [to] = F ++ "/" ++ t -> F <> "" ->
  relative wd from to = t.
Proof.
  intros Hfrom Hto HF.
  assert (Hne : F <> F ++ "/" ++ t) by (apply append_longer; discriminate).
  unfold relative.
  destruct (String.eqb_spec from to) as [-> | _]; [congruence|].
  rewrite Hfrom, Hto. apply String.eqb_neq in Hne. rewrite Hne.
  cbv zeta.
  set (f := Z.of_nat (String.length F)).
  assert (Hf : (1 <= f)%Z)
    by (subst f; destruct F; [congruence | cbn [String.length]; lia]).
  assert (Hto_len : Z.of_nat (String.length (F ++ "/" ++ t))
                    = (f + 1 + Z.of_nat (String.length t))%Z).
  { rewrite !length_append. cbn [String.length]. subst f. lia. }
  rewrite Hto_len.
  replace (f - 1 <? f + 1 + Z.of_nat (String.length t) - 1)%Z with true
    by (symmetry; apply Z.ltb_lt; lia).
  destruct (commonLoop_prefix F ("/" ++ t) (Z.to_nat (f - 1)) 0 (-1))
    as (lcs & ->); [lia | subst f; lia |].
  replace (0 + Z.of_nat (Z.to_nat (f - 1)))%Z with (f - 1)%Z by lia.
  rewrite Z.eqb_refl.
  replace (f + 1 + Z.of_nat (String.length t) - 1 >? f - 1)%Z with true
    by (symmetry; apply Z.gtb_lt; lia).
  replace (1 + (f - 1))%Z with f by lia.
  unfold JS.charCodeAt at 1.
  replace (f <? 0)%Z with false by (symmetry; apply Z.ltb_ge; lia).
  subst f. rewrite Nat2Z.id.
  change (F ++ "/" ++ t) with (F ++ String "/" t) at 1.
  rewrite get_append_here.
  cbn [isSlashCode sameCode Ascii.eqb Bool.eqb andb].
  replace (F ++ "/" ++ t) with ((F ++ "/") ++ t) by apply append_assoc.
  replace (Z.of_nat (String.length F) + 1)%Z
    with (Z.of_nat (String.length (F ++ "/")))
    by (rewrite length_append; cbn [String.length]; lia).
  apply sliceFrom_append.
Qed.

(** From a directory that resolves to the root. *)
Lemma relative_from_root (wd from to t : string) :
  resolve wd [from] = "/" -> resolve wd [to] = "/" ++ t ->
  t <> "" -> isAbsolute t = false ->
  relative wd from to = t.
Proof.
  intros Hfrom Hto Ht Habs.
  unfold relative.
  destruct (String.eqb_spec from to) as [-> | _].
  { rewrite Hfrom in Hto. inversion Hto. congruence. }
  rewrite Hfrom, Hto.
  destruct t as [|c t]; [congruence|].
  cbn [isAbsolute] in Habs. unfold isPosixPathSeparator in Habs.
  assert (Hne : "/" <> "/" ++ String c t) by discriminate.
  apply String.eqb_neq in Hne. rewrite Hne. cbv zeta.
  change (Z.of_nat (String.length "/")) with 1%Z.
  change (1 - 1)%Z with 0%Z.
  set (k := Z.of_nat (String.length ("/" ++ String c t))).
  assert (Hk : (2 <= k)%Z) by (subst k; cbn [append String.length]; lia).
  replace (0 <? k - 1)%Z with true by (symmetry; apply Z.ltb_lt; lia).
  change (Z.to_nat 0) with 0%nat. cbn [commonLoop].
  rewrite Z.eqb_refl.
  replace (k - 1 >? 0)%Z with true by (symmetry; apply Z.gtb_lt; lia).
  change (JS.charCodeAt ("/" ++ String c t) (1 + 0)) with (Some c).
  unfold isSlashCode, sameCode. rewrite Habs.
  exact (sliceFrom_append "/" (String c t)).
Qed.

(** ** [resolve] of a directory and of names below it *)

Lemma join_app (l1 l2 : list string) :
  l1 <> [] -> l2 <> [] ->
  JS.join "/" (l1 ++ l2) = JS.join "/" l1 ++ "/" ++ JS.join "/" l2.
Proof.
  intros H1 H2. induction l1 as [|x l1 IH]; [congruence|].
  destruct l1 as [|y l1].
  - cbn [app]. rewrite join_cons. destruct l2; [congruence | reflexivity].
  - change ((x :: y :: l1) ++ l2)%list with (x :: (y :: l1) ++ l2)%list.
    rewrite (join_cons x ((y :: l1) ++ l2)), (join_cons x (y :: l1)).
    cbn [app]. rewrite append_assoc. cbn [app] in IH.
    rewrite IH by discriminate. reflexivity.
Qed.

Lemma normalizeSegments_names_pushed (allow : bool) (names st : list string) :
  Forall nameSegment names ->
  normalizeSegments allow names st = (rev names ++ st)%list.
Proof.
  intros H. rewrite <- (rev_involutive names) at 1.
  apply normalizeSegments_push_names. now apply Forall_rev.
Qed.

Lemma resolveBase_kept (wd : string) (pathAbsolute : bool) :
  Forall keptSegment (fst (resolveBase wd pathAbsolute)).
Proof.
  unfold resolveBase. destruct pathAbsolute; [constructor|].
  destruct (String.eqb wd ""); [constructor|]. cbn [fst].
  apply normalizeSegments_kept; [apply segments_noSeparator | constructor].
Qed.

Lemma resolveBase_absolute (wd : string) (pathAbsolute : bool) :
  isAbsolute wd = true -> snd (resolveBase wd pathAbsolute) = true.
Proof.
  intros H. unfold resolveBase. destruct pathAbsolute; [reflexivity|].
  destruct (String.eqb_spec wd "") as [-> | _]; [discriminate | exact H].
Qed.

Lemma resolvedSegments_kept (wd p : string) :
  Forall keptSegment (resolvedSegments wd p).
Proof.
  apply normalizeSegments_kept;
    [apply segments_noSeparator | apply resolveBase_kept].
Qed.

Lemma resolve_names_below (wd d : string) (names : list string) :
  d <> "" -> names <> [] -> Forall nameSegment names ->
  resolve wd [d]
  = resolveFinish (snd (resolveBase wd (isAbsolute d)))
                  (JS.join "/" (rev (resolvedSegments wd d)))
  /\ resolve wd [d ++ "/" ++ JS.join "/" names]
     = resolveFinish (snd (resolveBase wd (isAbsolute d)))
         (JS.join "/" (rev (resolvedSegments wd d) ++ names)%list).
Proof.
  intros Hd Hn Hnames. split; [now apply resolve_single|].
  rewrite resolve_single by now apply append_nonempty_r.
  rewrite isAbsolute_append by assumption.
  rewrite segments_app_sep, segments_join;
    [|assumption
     |apply keptSegment_noSeparator; now apply nameSegment_kept].
  rewrite normalizeSegments_app, normalizeSegments_names_pushed by assumption.
  now rewrite rev_app_distr, rev_involutive.
Qed.

(** From a directory to names below it, the relative path is the names,
    when the directory does not resolve to the root or the resolution is
    absolute. *)
Lemma relative_names_below (wd d : string) (names : list string) :
  d <> "" -> names <> [] -> Forall nameSegment names ->
  resolvedSegments wd d <> []
  \/ snd (resolveBase wd (isAbsolute d)) = true ->
  relative wd d (d ++ "/" ++ JS.join "/" names) = JS.join "/" names.
Proof.
  intros Hd Hn Hnames Hcase.
  destruct (resolve_names_below wd d names Hd Hn Hnames) as (Hfrom & Hto).
  pose proof (resolvedSegments_kept wd d) as Hkept.
  pose proof (nameSegment_kept _ Hnames) as Hk.
  destruct (resolvedSegments wd d) as [|top S] eqn:ES.
  - destruct Hcase as [Hcase | Habs]; [congruence|].
    rewrite Habs in Hfrom, Hto. cbn [rev app] in Hfrom, Hto.
    apply (relative_from_root wd d _ _ Hfrom Hto).
    + now apply join_kept_nonempty.
    + now apply join_kept_relative.
  - assert (Hrev : rev (top :: S) <> []).
    { intros E. apply (f_equal (@List.length string)) in E.
      rewrite length_rev in E. discriminate. }
    pose proof (join_kept_nonempty _ Hrev (Forall_rev Hkept)) as Hx.
    rewrite join_app in Hto by assumption.
    set (x := JS.join "/" (rev (top :: S))) in *.
    apply (relative_below wd d _ (resolveFinish
             (snd (resolveBase wd (isAbsolute d))) x)).
    + exact Hfrom.
    + rewrite Hto. unfold resolveFinish.
      destruct (snd (resolveBase wd (isAbsolute d))); [reflexivity|].
      rewrite (eqb_empty_false x Hx).
      now rewrite eqb_empty_false by now apply append_nonempty_r.
    + unfold resolveFinish.
      destruct (snd (resolveBase wd (isAbsolute d))); [discriminate|].
      now rewrite (eqb_empty_false x Hx).
Qed.

Lemma relative_names_below_absolute (wd d : string) (names : list string) :
  isAbsolute wd = true ->
  d <> "" -> names <> [] -> Forall nameSegment names ->
  relative wd d (d ++ "/" ++ JS.join "/" names) = JS.join "/" names.
Proof.
  intros Hwd Hd Hn Hnames. apply relative_names_below; try assumption.
  right. now apply resolveBase_absolute.
Qed.

Lemma relative_names_below_named (wd d0 n : string) (names : list string) :
  nameSegment n -> names <> [] -> Forall nameSegment names ->
  relative wd (d0 ++ "/" ++ n) ((d0 ++ "/" ++ n) ++ "/" ++ JS.join "/" names)
  = JS.join "/" names.
Proof.
  intros Hname Hn Hnames. apply relative_names_below; try assumption.
  - apply append_nonempty_r. discriminate.
  - left. unfold resolvedSegments.
    destruct Hname as ((Hsep & H1 & H2) & H3).
    rewrite segments_app_sep, Hsep, normalizeSegments_app.
    cbn [normalizeSegments fold_left].
    rewrite normalizeSegment_name by assumption. discriminate.
Qed.

(** ** What [resolve] returns in an absolute working directory *)

Lemma hasTrailingSeparator_append (a b : string) :
  b <> "" -> hasTrailingSeparator (a ++ b) = hasTrailingSeparator b.
Proof.
  intros Hb. induction a as [|c a IH]; [reflexivity|].
  change (String c a ++ b) with (String c (a ++ b)).
  cbn [hasTrailingSeparator]. rewrite IH.
  destruct (a ++ b) eqn:E; [|reflexivity].
  destruct a; [cbn in E; congruence | discriminate].
Qed.

Lemma noSeparator_tail (c : ascii) (s : string) :
  noSeparator (String c s) ->
  isPosixPathSeparator c = false /\ noSeparator s.
Proof.
  unfold noSeparator. cbn [segments].
  destruct (isPosixPathSeparator c); [intros H; inversion H|].
  destruct (segments s) as [|s' l] eqn:E; [now apply segments_not_nil in E|].
  intros H. inversion H; subst. now split.
Qed.

Lemma noSeparator_no_trailing (s : string) :
  noSeparator s -> hasTrailingSeparator s = false.
Proof.
  induction s as [|c s IH]; [reflexivity|]. intros H.
  apply noSeparator_tail in H as (Hc & Hs).
  cbn [hasTrailingSeparator]. destruct s; [exact Hc | now apply IH].
Qed.

Lemma join_no_trailing (l : list string) :
  l <> [] -> Forall keptSegment l ->
  hasTrailingSeparator (JS.join "/" l) = false.
Proof.
  intros Hl H. destruct (exists_last Hl) as (l' & z & ->).
  apply Forall_app in H as (_ & Hz).
  inversion Hz as [|? ? (Hsep & Hne & _) _]; subst.
  destruct l' as [|y l'].
  - now apply noSeparator_no_trailing.
  - rewrite join_app by discriminate.
    change (JS.join "/" [z]) with z.
    rewrite !hasTrailingSeparator_append;
      [now apply noSeparator_no_trailing | assumption
      | now apply append_nonempty_r].
Qed.

(** A root followed by names is already normalized. *)
Lemma normalize_root_names (S : list string) :
  Forall nameSegment S ->
  normalize ("/" ++ JS.join "/" (rev S)) = "/" ++ JS.join "/" (rev S).
Proof.
  intros HS. destruct S as [|top S']; [reflexivity|].
  assert (Hrev : rev (top :: S') <> []).
  { intros E. apply (f_equal (@List.length string)) in E.
    rewrite length_rev in E. discriminate. }
  pose proof (nameSegment_kept _ HS) as Hk.
  pose proof (Forall_rev Hk) as Hkr.
  pose proof (join_kept_nonempty _ Hrev Hkr) as Hx.
  unfold normalize, normalizeString.
  rewrite segments_leading,
    (segments_join _ Hrev (keptSegment_noSeparator _ Hkr)).
  cbn [isAbsolute append isPosixPathSeparator Ascii.eqb Bool.eqb andb negb
       String.eqb].
  cbn [normalizeSegments fold_left].
  rewrite (normalizeSegment_skip false [] "") by tauto.
  fold (normalizeSegments false (rev (top :: S')) []).
  rewrite normalizeSegments_push_names, app_nil_r by assumption.
  rewrite (eqb_empty_false _ Hx).
  change (String "/" (JS.join "/" (rev (top :: S'))))
    with ("/" ++ JS.join "/" (rev (top :: S'))).
  rewrite hasTrailingSeparator_append by assumption.
  now rewrite join_no_trailing.
Qed.

Lemma resolve_root_names (wd p : string) :
  isAbsolute wd = true ->
  exists S, Forall nameSegment S
            /\ resolve wd [p] = "/" ++ JS.join "/" (rev S).
Proof.
  intros Hwd.
  assert (Hne : wd <> "") by (intros ->; discriminate).
  destruct (String.eqb_spec p "") as [-> | Hp].
  - exists (normalizeSegments false (segments wd) []). split.
    + apply normalizeSegments_names;
        [apply segments_noSeparator | constructor].
    + unfold resolve. cbn [rev app resolveLoop String.eqb].
      rewrite (eqb_empty_false wd Hne), Hwd. cbn [negb].
      unfold normalizeString. change (wd ++ "/" ++ "") with (wd ++ "/").
      now rewrite segments_trailing, normalizeSegments_trailing.
  - exists (resolvedSegments wd p). split.
    + unfold resolvedSegments.
      rewrite (resolveBase_absolute wd _ Hwd). cbn [negb].
      apply normalizeSegments_names; [apply segments_noSeparator|].
      unfold resolveBase. destruct (isAbsolute p); [constructor|].
      rewrite (eqb_empty_false wd Hne), Hwd. cbn [fst negb].
      apply normalizeSegments_names;
        [apply segments_noSeparator | constructor].
    + rewrite resolve_single by assumption. unfold resolvedSegments.
      now rewrite (resolveBase_absolute wd _ Hwd).
Qed.

(** In an absolute working directory [resolve] returns an absolute,
    normalized path. *)
Theorem resolve_absolute_normalized (wd p : string) :
  isAbsolute wd = true ->
  isAbsolute (resolve wd [p]) = true
  /\ normalize (resolve wd [p]) = resolve wd [p].
Proof.
  intros Hwd. destruct (resolve_root_names wd p Hwd) as (S & HS & ->).
  split; [reflexivity | now apply normalize_root_names].
Qed.

End PathBelow.

(* ------------------------------------------------------------------ *)
(** * Where the commands point *)

Lemma relative_resolved_to (wd from to to' : string) :
  Path.resolve wd [to] = Path.resolve wd [to'] ->
  Path.relative wd from to = Path.relative wd from to'.
Proof.
  intros Hto. unfold Path.relative.
  destruct (String.eqb_spec from to) as [E1 | _];
    destruct (String.eqb_spec from to') as [E2 | _].
  - reflexivity.
  - subst to. now rewrite Hto, String.eqb_refl.
  - subst to'. now rewrite <- Hto, String.eqb_refl.
  - now rewrite Hto.
Qed.

Lemma join_not_empty (args : list string) : Path.join args <> "".
Proof.
  unfold Path.join.
  destruct (filter (fun arg => negb (String.eqb arg "")) args)
    as [|x l] eqn:E; [discriminate|].
  assert (Hx : x <> "").
  { assert (Hin : In x (filter (fun arg => negb (String.eqb arg "")) args))
      by (rewrite E; now left).
    apply filter_In in Hin as (_ & Hin). apply negb_true_iff in Hin.
    now apply String.eqb_neq. }
  apply PathFacts.normalize_segments. rewrite PathFacts.join_cons.
  destruct l; [exact Hx|]. destruct x; [congruence | discriminate].
Qed.

Lemma join_absolute (dir : string) (rest : list string) :
  Path.isAbsolute dir = true -> Path.isAbsolute (Path.join (dir :: rest)) = true.
Proof.
  intros Hdir. assert (Hne : dir <> "") by (intros ->; discriminate).
  unfold Path.join. cbn [filter].
  rewrite (PathFacts.eqb_empty_false dir Hne). cbn [negb].
  set (l := filter (fun arg => negb (String.eqb arg "")) rest).
  assert (Hj : JS.join "/" (dir :: l) <> "").
  { rewrite PathFacts.join_cons.
    destruct l; [exact Hne|]. destruct dir; [congruence | discriminate]. }
  destruct (PathFacts.normalize_segments _ Hj) as (_ & -> & _).
  rewrite PathFacts.join_cons.
  destruct l; [exact Hdir|]. now rewrite PathFacts.isAbsolute_append.
Qed.

(** The web tests directory of a non-empty [rootDir], and a file below
    it. *)
Lemma web_test_below (wd root : string) (names : list string) :
  root <> "" -> names <> [] -> forallb isNameSegment names = true ->
  Path.relative wd (Path.join [root; "third_party"; "blink"; "web_tests"])
    (root ++ "/third_party/blink/web_tests/" ++ JS.join "/" names)
  = JS.join "/" names.
Proof.
  intros Hroot Hn Hnames. apply PathBelow.isNameSegments_spec in Hnames.
  rewrite web_test_path_relative by assumption.
  replace (JS.join Path.sep [root; "third_party"; "blink"; "web_tests"])
    with ((root ++ "/third_party/blink") ++ "/" ++ "web_tests")
    by (now rewrite PathFacts.append_assoc).
  replace (root ++ "/third_party/blink/web_tests/" ++ JS.join "/" names)
    with (((root ++ "/third_party/blink") ++ "/" ++ "web_tests")
          ++ "/" ++ JS.join "/" names)
    by (now rewrite !PathFacts.append_assoc).
  apply PathBelow.relative_names_below_named; try assumption.
  now apply PathBelow.isNameSegment_spec.
Qed.

(** X1: a file that lies below [rootDir/third_party/blink/web_tests], at
    the relative path [names], gets the command that runs exactly that
    path, whatever the working directory is; [rootDir] need not be
    absolute or normalized, only non-empty. *)
Theorem getWebTestCommand_below_web_tests (st : Store) (names : list string) :
  rootDir (this st) <> "" -> names <> [] ->
  forallb isNameSegment names = true ->
  let test_path := JS.join "/" names in
  let file_path :=
    rootDir (this st) ++ "/third_party/blink/web_tests/" ++ test_path in
  let command :=
    "third_party/blink/tools/run_web_tests.py -t " ++ compileTarget (this st)
    ++ " " ++ test_path in
  Path.extname file_path = ".html" \/ Path.extname file_path = ".php" ->
  result (getWebTestCommand file_path) st = Normal command
  /\ result (Rev1.getWebTestCommand file_path) st = Normal command
  /\ result (Rev0.getWebTestCommand file_path) st = Normal command.
Proof.
  intros Hroot Hn Hnames test_path file_path command Hext.
  apply web_test_extension_accepted in Hext.
  pose proof (web_test_below (cwd (host st)) _ names Hroot Hn Hnames) as Hrel.
  unfold result. repeat split.
  - rewrite getWebTestCommand_accepts by assumption. cbn [fst].
    subst command test_path file_path. now rewrite Hrel.
  - rewrite Rev1_getWebTestCommand_same, getWebTestCommand_accepts
      by assumption.
    cbn [fst]. subst command test_path file_path. now rewrite Hrel.
  - rewrite Rev0_getWebTestCommand_run. cbn [fst].
    rewrite <- web_test_path_relative by assumption.
    subst command test_path file_path. now rewrite Hrel.
Qed.

Lemma getWebTestCommand_below_web_tests_witness :
  result
    (getWebTestCommand
       "/home/dev/chromium/src/third_party/blink/web_tests/fast/dom/title.html")
    checkoutStore
  = Normal
      "third_party/blink/tools/run_web_tests.py -t Default fast/dom/title.html".
Proof.
  apply (getWebTestCommand_below_web_tests checkoutStore
           ["fast"; "dom"; "title.html"]).
  - discriminate.
  - discriminate.
  - reflexivity.
  - left. reflexivity.
Defined.

(** X2: in a process with an absolute working directory, for a non-empty
    [rootDir] and a build configuration and an executable that are plain
    names, the executable of [getCppTestCommand] lies at
    [out/<compileTarget>/<test_executable>] relative to [rootDir], and its
    path is absolute when [rootDir] is. *)
Theorem getCppTestCommand_below_root
        (st : Store) (test_executable test_name : string) :
  Path.isAbsolute (cwd (host st)) = true ->
  rootDir (this st) <> "" ->
  isNameSegment (compileTarget (this st)) = true ->
  isNameSegment test_executable = true ->
  let executable :=
    Path.join [rootDir (this st); "out"; compileTarget (this st);
               test_executable] in
  result (getCppTestCommand test_executable test_name) st
  = Normal (executable ++ " --gtest_filter=" ++ test_name)
  /\ Path.relative (cwd (host st)) (rootDir (this st)) executable
     = "out/" ++ compileTarget (this st) ++ "/" ++ test_executable
  /\ (Path.isAbsolute (rootDir (this st)) = true ->
      Path.isAbsolute executable = true).
Proof.
  intros Hwd Hroot Htarget Hexe executable. subst executable.
  split; [unfold result; now rewrite getCppTestCommand_run|].
  split; [|now apply join_absolute].
  assert (Hct : compileTarget (this st) <> "")
    by (now apply PathBelow.isNameSegment_spec in Htarget
         as ((_ & H & _) & _)).
  assert (Hex : test_executable <> "")
    by (now apply PathBelow.isNameSegment_spec in Hexe
         as ((_ & H & _) & _)).
  rewrite PathFacts.join_directory by (try discriminate; assumption).
  rewrite (relative_resolved_to _ _ _
             (JS.join "/" [rootDir (this st); "out"; compileTarget (this st);
                           test_executable])).
  - change (JS.join "/" [rootDir (this st); "out"; compileTarget (this st);
                         test_executable])
      with (rootDir (this st) ++ "/"
            ++ JS.join "/" ["out"; compileTarget (this st); test_executable]).
    rewrite PathBelow.relative_names_below_absolute;
      [reflexivity | assumption | assumption | discriminate|].
    repeat constructor; try (now apply PathBelow.isNameSegment_spec).
  - apply PathFacts.resolve_normalize.
    now apply PathFacts.array_join_directory_nonempty.
Qed.

Lemma getCppTestCommand_below_root_witness :
  result (getCppTestCommand "blink_unittests" "DocumentLoaderSimTest.*")
         checkoutStore
  = Normal "/home/dev/chromium/src/out/Default/blink_unittests --gtest_filter=DocumentLoaderSimTest.*"
  /\ Path.relative "/home/dev/chromium" "/home/dev/chromium/src"
       "/home/dev/chromium/src/out/Default/blink_unittests"
     = "out/Default/blink_unittests".
Proof.
  pose proof (getCppTestCommand_below_root checkoutStore "blink_unittests"
                "DocumentLoaderSimTest.*" eq_refl) as H.
  assert (Hroot : rootDir (this checkoutStore) <> "") by discriminate.
  specialize (H Hroot eq_refl eq_refl).
  split; [exact (proj1 H) | exact (proj1 (proj2 H))].
Defined.

(* ------------------------------------------------------------------ *)
(** * Running the registered commands *)

Arguments Path.join : simpl never.
Arguments Path.relative : simpl never.
Arguments Path.resolve : simpl never.
Arguments Path.extname : simpl never.
Arguments Path.normalize : simpl never.
Arguments JS.includes : simpl never.

Section WorkbenchRuns.

Variable w : Workbench.

Lemma setStore_same : setStore (store w) w = w.
Proof. now destruct w. Qed.

Lemma liftM_reads {A : Type} (m : M A) (r : Completion A) :
  m (store w) = (r, store w) -> liftM m w = (r, w).
Proof. intros H. unfold liftM. now rewrite H, setStore_same. Qed.

Lemma getTestCommand_run :
  getTestCommand (store w)
  = (match activeTextEditor (host (store w)) with
     | None => Throw "No active editor"
     | Some file_path =>
         match result (getWebTestCommand file_path) (store w) with
         | Normal web_test =>
             Normal ("autoninja -C out/" ++ compileTarget (this (store w))
                     ++ " content_shell && " ++ web_test)
         | Throw e => Throw e
         end
     end, store w).
Proof.
  unfold getTestCommand.
  rewrite (bind_normal _ _ _ _ (getCompileCommand_run _ "content_shell")).
  cbv beta. unfold bind at 1. rewrite getCurrentFilePath_run.
  destruct (activeTextEditor (host (store w))) as [file_path|];
    [|reflexivity].
  pose proof (getWebTestCommand_final (store w) file_path) as F.
  unfold final, result in *. unfold bind.
  destruct (getWebTestCommand file_path (store w)) as [[web_test|e] st'];
    cbn [fst snd] in *; subst st'; [|reflexivity].
  unfold ret. do 2 f_equal. now rewrite !PathFacts.append_assoc.
Qed.

Lemma Rev1_getTestCommand_same : Rev1.getTestCommand = getTestCommand.
Proof. reflexivity. Qed.

Lemma initChromiumTestManager_run :
  Extension.initChromiumTestManager w
  = match rootPath w with
    | None =>
        (Throw
           "No opened folder. Please open a folder that contains chromium checkout.",
         w)
    | Some folder =>
        if existsSync w (Path.join [folder; "src"; "LICENSE.chromium_os"])
        then (Normal tt,
              setManager
                (newChromiumTestManager (Path.join [folder; "src"]) None) w)
        else (Throw "Current project is not a chromium checkout.", w)
    end.
Proof.
  unfold Extension.initChromiumTestManager, wbind, Vscode.workspaceRootPath,
    Vscode.fsExistsSync.
  destruct (rootPath w) as [folder|]; [|reflexivity].
  now destruct (existsSync w _).
Qed.

Lemma runCommand_run (command : string) :
  Extension.runCommand command w
  = (Normal tt,
     setTerminals
       match terminals w with
       | [] => [mkTerminal ["cd src" ++ newline; command ++ newline] true]
       | t :: rest =>
           mkTerminal (sentText t ++ [command ++ newline]) true :: rest
       end w).
Proof.
  unfold Extension.runCommand, Extension.getTerminal, wbind,
    Vscode.windowTerminals.
  destruct w as [st md rp ex cf cl sb ts]. cbn [terminals].
  now destruct ts.
Qed.

End WorkbenchRuns.

(** What an exported command that first fetches the test command does. *)
Lemma exportCommand_run (k : string -> W unit) (w : Workbench) :
  Extension.exportCommand
    (wbind (callManager "getTestCommand" getTestCommand) k) w
  = match rootPath w with
    | None =>
        liftM (log ("vscode-chromium-test error: "
                    ++ "No opened folder. Please open a folder that contains chromium checkout."))
              w
    | Some folder =>
        if existsSync w (Path.join [folder; "src"; "LICENSE.chromium_os"])
        then
          let w1 :=
            setManager
              (newChromiumTestManager (Path.join [folder; "src"]) None) w in
          match fst (getTestCommand (store w1)) with
          | Normal command =>
              wtryCatch (k command)
                (fun e => liftM (log ("vscode-chromium-test error: " ++ e)))
                w1
          | Throw e => liftM (log ("vscode-chromium-test error: " ++ e)) w1
          end
        else
          liftM (log ("vscode-chromium-test error: "
                      ++ "Current project is not a chromium checkout."))
                w
    end.
Proof.
  unfold Extension.exportCommand, Extension.wrapException, wtryCatch.
  unfold wbind at 1. rewrite initChromiumTestManager_run.
  destruct (rootPath w) as [folder|]; [|reflexivity].
  destruct (existsSync w _); [|reflexivity].
  cbv zeta. set (w1 := setManager _ w).
  unfold wbind, callManager. change (managerDefined w1) with true.
  cbv iota.
  rewrite (liftM_reads w1 getTestCommand _ (getTestCommand_run w1)).
  cbn [fst].
  rewrite (getTestCommand_run w1). cbn [fst].
  now destruct (activeTextEditor (host (store w1))) as [f|];
    [destruct (result (getWebTestCommand f) (store w1))|].
Qed.

Lemma liftM_log_reports (message : string) (w : Workbench) :
  outcome (liftM (log message)) w = Normal tt
  /\ reportsOnly message w (after (liftM (log message)) w)
  /\ this (store (after (liftM (log message)) w)) = this (store w)
  /\ managerDefined (after (liftM (log message)) w) = managerDefined w.
Proof. repeat split. Qed.

Lemma reportsOnly_setManager
      (message : string) (m : ChromiumTestManager) (w w' : Workbench) :
  reportsOnly message (setManager m w) w' -> reportsOnly message w w'.
Proof. exact (fun H => H). Qed.

Lemma pasteToClipboard_returns (input : string) (w : Workbench) :
  outcome (Extension.pasteToClipboard input) w = Normal tt.
Proof. reflexivity. Qed.

Lemma runCommand_returns (command : string) (w : Workbench) :
  outcome (Extension.runCommand command) w = Normal tt.
Proof. unfold outcome. now rewrite runCommand_run. Qed.

(** The start-up and file checks of an exported command, for any
    continuation [k] that returns normally. *)
Lemma exported_reports (k : string -> W unit) (w : Workbench) :
  (forall command w', outcome (k command) w' = Normal tt) ->
  let exported :=
    Extension.exportCommand
      (wbind (callManager "getTestCommand" getTestCommand) k) in
  outcome exported w = Normal tt
  /\ (rootPath w = None ->
      reportsOnly
        "vscode-chromium-test error: No opened folder. Please open a folder that contains chromium checkout."
        w (after exported w)
      /\ this (store (after exported w)) = this (store w)
      /\ managerDefined (after exported w) = managerDefined w)
  /\ (forall folder,
         rootPath w = Some folder ->
         existsSync w (Path.join [folder; "src"; "LICENSE.chromium_os"])
         = false ->
         reportsOnly
           "vscode-chromium-test error: Current project is not a chromium checkout."
           w (after exported w)
         /\ this (store (after exported w)) = this (store w)
         /\ managerDefined (after exported w) = managerDefined w)
  /\ (forall folder,
         rootPath w = Some folder ->
         existsSync w (Path.join [folder; "src"; "LICENSE.chromium_os"])
         = true ->
         activeTextEditor (host (store w)) = None ->
         reportsOnly "vscode-chromium-test error: No active editor"
                     w (after exported w))
  /\ (forall folder file_path,
         checkoutOpen folder file_path w ->
         Path.extname file_path <> ".html" ->
         Path.extname file_path <> ".php" ->
         reportsOnly
           ("vscode-chromium-test error: Wrong extension("
            ++ Path.extname file_path
            ++ ") for web test. Expect .html or .php.")
           w (after exported w)).
Proof.
  intros Hk exported. unfold outcome, after. subst exported.
  rewrite exportCommand_run.
  split; [|split; [|split; [|split]]].
  - destruct (rootPath w) as [folder|]; [|reflexivity].
    destruct (existsSync w _); [|reflexivity]. cbv zeta.
    destruct (fst (getTestCommand (store (setManager _ w))))
      as [command|e]; [|reflexivity].
    unfold wtryCatch. specialize (Hk command (setManager
      (newChromiumTestManager (Path.join [folder; "src"]) None) w)).
    unfold outcome in Hk.
    destruct (k command _) as [[[]|e] w']; [reflexivity | discriminate].
  - intros Hroot. rewrite Hroot. repeat split.
  - intros folder Hroot Hlicense. rewrite Hroot, Hlicense. repeat split.
  - intros folder Hroot Hlicense Heditor. rewrite Hroot, Hlicense.
    cbv zeta. rewrite getTestCommand_run.
    cbn [fst store setManager host]. rewrite Heditor. repeat split.
  - intros folder file_path (Hroot & Hlicense & Heditor) Hhtml Hphp.
    rewrite Hroot, Hlicense. cbv zeta. rewrite getTestCommand_run.
    cbn [fst store setManager host]. rewrite Heditor. unfold result.
    rewrite getWebTestCommand_rejects
      by (apply web_test_extension_rejected; tauto).
    repeat split.
Qed.

(** X3: a command registered by [activate] of [src/extension.ts] never
    throws, and when the folder is missing, is not a checkout, no editor is
    active or the file is not a web test, all it does is show one
    information message that names the reason: clipboard, status bar and
    terminals stay as they were (and, for the first two reasons, the
    manager too). *)
Theorem registered_commands_report_errors
        (w0 w : Workbench) (registered : Registered)
        (name : string) (command : W unit) :
  outcome Extension.activate w0 = Normal registered ->
  In (name, command) registered ->
  outcome command w = Normal tt
  /\ (rootPath w = None ->
      reportsOnly
        "vscode-chromium-test error: No opened folder. Please open a folder that contains chromium checkout."
        w (after command w)
      /\ this (store (after command w)) = this (store w)
      /\ managerDefined (after command w) = managerDefined w)
  /\ (forall folder,
         rootPath w = Some folder ->
         existsSync w (Path.join [folder; "src"; "LICENSE.chromium_os"])
         = false ->
         reportsOnly
           "vscode-chromium-test error: Current project is not a chromium checkout."
           w (after command w)
         /\ this (store (after command w)) = this (store w)
         /\ managerDefined (after command w) = managerDefined w)
  /\ (forall folder,
         rootPath w = Some folder ->
         existsSync w (Path.join [folder; "src"; "LICENSE.chromium_os"])
         = true ->
         activeTextEditor (host (store w)) = None ->
         reportsOnly "vscode-chromium-test error: No active editor"
                     w (after command w))
  /\ (forall folder file_path,
         checkoutOpen folder file_path w ->
         Path.extname file_path <> ".html" ->
         Path.extname file_path <> ".php" ->
         reportsOnly
           ("vscode-chromium-test error: Wrong extension("
            ++ Path.extname file_path
            ++ ") for web test. Expect .html or .php.")
           w (after command w)).
Proof.
  intros Hactivate Hin. inversion Hactivate; subst registered.
  destruct Hin as [Hin | [Hin | []]]; inversion Hin; subst.
  - exact (exported_reports (fun c => Extension.pasteToClipboard c) w
             pasteToClipboard_returns).
  - exact (exported_reports (fun c => Extension.runCommand c) w
             runCommand_returns).
Qed.

Lemma registered_commands_report_errors_witness :
  outcome Extension.runWebTest emptyWorkbench = Normal tt
  /\ reportsOnly
       "vscode-chromium-test error: No opened folder. Please open a folder that contains chromium checkout."
       emptyWorkbench (after Extension.runWebTest emptyWorkbench).
Proof.
  pose proof (registered_commands_report_errors emptyWorkbench emptyWorkbench
                _ "chromium.runWebTest" Extension.runWebTest eq_refl
                (or_intror (or_introl eq_refl))) as H.
  split; [exact (proj1 H) | exact (proj1 (proj1 (proj2 H) eq_refl))].
Defined.

(** The test command of a web test that is open in a checkout. *)
Lemma getTestCommand_web_test
      (w : Workbench) (folder : string) (names : list string) :
  activeTextEditor (host (store w)) = Some (webTestFile folder names) ->
  names <> [] -> forallb isNameSegment names = true ->
  Path.extname (webTestFile folder names) = ".html"
  \/ Path.extname (webTestFile folder names) = ".php" ->
  fst (getTestCommand
         (store (setManager
                   (newChromiumTestManager (Path.join [folder; "src"]) None)
                   w)))
  = Normal (defaultTestCommand (JS.join "/" names)).
Proof.
  intros Heditor Hn Hnames Hext. rewrite getTestCommand_run.
  cbn [fst store setManager host]. rewrite Heditor. unfold result.
  rewrite getWebTestCommand_accepts
    by now apply web_test_extension_accepted.
  cbn [fst this rootDir compileTarget newChromiumTestManager host cwd].
  unfold webTestFile.
  rewrite web_test_below; [reflexivity | apply join_not_empty | easy | easy].
Qed.

(** X4: with a checkout open and a web test below its
    [third_party/blink/web_tests] in the active editor,
    ['chromium.copyWebTestCommand'] puts exactly the build-and-run command
    for that test on the clipboard, says so in the status bar, shows no
    message, touches no terminal, and leaves the manager set to the
    checkout's [src] with the configuration ["Default"]. *)
Theorem copyWebTestCommand_copies
        (w : Workbench) (folder : string) (names : list string) :
  checkoutOpen folder (webTestFile folder names) w ->
  names <> [] -> forallb isNameSegment names = true ->
  Path.extname (webTestFile folder names) = ".html"
  \/ Path.extname (webTestFile folder names) = ".php" ->
  let w' := after Extension.copyWebTestCommand w in
  let command := defaultTestCommand (JS.join "/" names) in
  outcome Extension.copyWebTestCommand w = Normal tt
  /\ clipboard w' = Some command
  /\ statusBarMessages w'
     = (statusBarMessages w
        ++ [((doubleQuote ++ command ++ doubleQuote
              ++ " was copied to the clipboard.")%string, 3000%Z)])%list
  /\ informationMessages (host (store w'))
     = informationMessages (host (store w))
  /\ terminals w' = terminals w
  /\ managerDefined w' = true
  /\ this (store w')
     = mkChromiumTestManager (Path.join [folder; "src"]) "Default".
Proof.
  intros (Hroot & Hlicense & Heditor) Hn Hnames Hext w' command.
  subst w'. unfold outcome, after, Extension.copyWebTestCommand.
  rewrite exportCommand_run, Hroot, Hlicense. cbv zeta.
  rewrite (getTestCommand_web_test w folder names) by assumption.
  repeat split.
Qed.

Lemma copyWebTestCommand_copies_witness :
  clipboard (after Extension.copyWebTestCommand checkoutWorkbench)
  = Some "autoninja -C out/Default content_shell && third_party/blink/tools/run_web_tests.py -t Default fast/dom/title.html".
Proof.
  refine (proj1 (proj2 (copyWebTestCommand_copies checkoutWorkbench
            "/home/dev/chromium" ["fast"; "dom"; "title.html"] _ _ _ _))).
  - repeat split.
  - discriminate.
  - reflexivity.
  - left. reflexivity.
Defined.

(** X5: in the same situation ['chromium.runWebTest'] sends the command,
    with a line feed, to the first terminal and shows it; when there is no
    terminal it creates one and sends ["cd src"] first.  Other terminals,
    the clipboard, the status bar and the messages are untouched. *)
Theorem runWebTest_sends
        (w : Workbench) (folder : string) (names : list string) :
  checkoutOpen folder (webTestFile folder names) w ->
  names <> [] -> forallb isNameSegment names = true ->
  Path.extname (webTestFile folder names) = ".html"
  \/ Path.extname (webTestFile folder names) = ".php" ->
  let w' := after Extension.runWebTest w in
  let command := defaultTestCommand (JS.join "/" names) in
  outcome Extension.runWebTest w = Normal tt
  /\ terminals w'
     = match terminals w with
       | [] => [mkTerminal ["cd src" ++ newline; command ++ newline] true]
       | t :: rest =>
           mkTerminal (sentText t ++ [command ++ newline]) true :: rest
       end
  /\ clipboard w' = clipboard w
  /\ statusBarMessages w' = statusBarMessages w
  /\ informationMessages (host (store w'))
     = informationMessages (host (store w)).
Proof.
  intros (Hroot & Hlicense & Heditor) Hn Hnames Hext w' command.
  subst w'. unfold outcome, after, Extension.runWebTest.
  rewrite exportCommand_run, Hroot, Hlicense. cbv zeta.
  rewrite (getTestCommand_web_test w folder names) by assumption.
  unfold wtryCatch. rewrite runCommand_run.
  repeat split.
Qed.

Lemma runWebTest_sends_witness :
  terminals (after Extension.runWebTest checkoutWorkbench)
  = [mkTerminal
       ["cd src" ++ newline;
        "autoninja -C out/Default content_shell && third_party/blink/tools/run_web_tests.py -t Default fast/dom/title.html"
        ++ newline]
       true].
Proof.
  refine (proj1 (proj2 (runWebTest_sends checkoutWorkbench
            "/home/dev/chromium" ["fast"; "dom"; "title.html"] _ _ _ _))).
  - repeat split.
  - discriminate.
  - reflexivity.
  - left. reflexivity.
Defined.

(** ** The terminal over several commands *)

Lemma runCommands_cons (command : string) (rest : list string) (w : Workbench) :
  runCommands (command :: rest) w
  = runCommands rest (after (Extension.runCommand command) w).
Proof.
  cbn [runCommands]. unfold wbind, after. now rewrite runCommand_run.
Qed.

Lemma runCommands_existing_terminal
      (commands : list string) (w : Workbench)
      (t : Terminal) (rest : list Terminal) :
  terminals w = t :: rest -> shown t = true ->
  outcome (runCommands commands) w = Normal tt
  /\ terminals (after (runCommands commands) w)
     = mkTerminal
         (sentText t ++ map (fun c => (c ++ newline)%string) commands)%list true
       :: rest.
Proof.
  revert w t. induction commands as [|command commands IH];
    intros w t Hterminals Hshown.
  - cbn [runCommands map]. unfold outcome, after, wret. cbn [fst snd].
    rewrite app_nil_r, Hterminals. destruct t as [sent sh].
    cbn [shown] in Hshown. now subst sh.
  - unfold outcome, after. rewrite runCommands_cons.
    unfold after. rewrite runCommand_run. cbn [snd].
    rewrite Hterminals.
    destruct (IH (setTerminals
                    (mkTerminal (sentText t ++ [(command ++ newline)%string])%list true
                     :: rest) w)
                 (mkTerminal (sentText t ++ [(command ++ newline)%string])%list true)
                 eq_refl eq_refl) as (Hout & Hterm).
    unfold outcome, after in Hout, Hterm. rewrite Hout, Hterm.
    cbn [sentText map]. now rewrite <- app_assoc.
Qed.

(** X6: commands run one after the other go to one and the same
    terminal, in order, each with its line feed: the first terminal that
    exists, or, when there is none, a single new terminal that receives
    ["cd src"] once, before the first command.  No command throws and no
    further terminal is created. *)
Theorem runCommands_one_terminal (commands : list string) (w : Workbench) :
  commands <> [] ->
  outcome (runCommands commands) w = Normal tt
  /\ terminals (after (runCommands commands) w)
     = match terminals w with
       | [] =>
           [mkTerminal
              (("cd src" ++ newline)
               :: map (fun c => c ++ newline) commands) true]
       | t :: rest =>
           mkTerminal
             (sentText t ++ map (fun c => (c ++ newline)%string) commands)%list true
           :: rest
       end.
Proof.
  destruct commands as [|command commands]; [congruence|]. intros _.
  unfold outcome, after. rewrite runCommands_cons.
  unfold after. rewrite runCommand_run. cbn [snd].
  destruct (terminals w) as [|t rest] eqn:Hterminals.
  - destruct (runCommands_existing_terminal commands
                (setTerminals
                   [mkTerminal ["cd src" ++ newline; command ++ newline] true]
                   w)
                (mkTerminal ["cd src" ++ newline; command ++ newline] true)
                [] eq_refl eq_refl) as (Hout & Hterm).
    unfold outcome, after in Hout, Hterm. now rewrite Hout, Hterm.
  - destruct (runCommands_existing_terminal commands
                (setTerminals
                   (mkTerminal (sentText t ++ [(command ++ newline)%string])%list true
                    :: rest) w)
                (mkTerminal (sentText t ++ [(command ++ newline)%string])%list true)
                rest eq_refl eq_refl) as (Hout & Hterm).
    unfold outcome, after in Hout, Hterm. rewrite Hout, Hterm.
    cbn [sentText map]. now rewrite <- app_assoc.
Qed.

Lemma runCommands_one_terminal_witness :
  terminals (after (runCommands ["ls"; "pwd"]) checkoutWorkbench)
  = [mkTerminal ["cd src" ++ newline; "ls" ++ newline; "pwd" ++ newline]
                true].
Proof.
  refine (proj2 (runCommands_one_terminal ["ls"; "pwd"] checkoutWorkbench _)).
  discriminate.
Defined.

(** ** The working directory *)

(** X7: with an absolute workspace folder and an absolute file name, what
    ['chromium.copyWebTestCommand'] copies does not depend on the working
    directory of the process, nor on anything else of the workbench. *)
Theorem copied_command_independent_of_cwd
        (w1 w2 : Workbench) (folder file_path : string) :
  checkoutOpen folder file_path w1 ->
  checkoutOpen folder file_path w2 ->
  Path.isAbsolute folder = true ->
  Path.isAbsolute file_path = true ->
  Path.extname file_path = ".html" \/ Path.extname file_path = ".php" ->
  exists command,
    clipboard (after Extension.copyWebTestCommand w1) = Some command
    /\ clipboard (after Extension.copyWebTestCommand w2) = Some command.
Proof.
  intros (Hroot1 & Hlicense1 & Heditor1) (Hroot2 & Hlicense2 & Heditor2)
         Hfolder Hfile Hext.
  apply web_test_extension_accepted in Hext.
  unfold after, Extension.copyWebTestCommand.
  rewrite !exportCommand_run, Hroot1, Hlicense1, Hroot2, Hlicense2.
  cbv zeta. rewrite !getTestCommand_run.
  cbn [fst store setManager host]. rewrite Heditor1, Heditor2.
  unfold result. rewrite !getWebTestCommand_accepts by assumption.
  cbn [fst this rootDir compileTarget newChromiumTestManager host cwd].
  rewrite (web_test_path_absolute file_path (cwd (host (store w1)))
             (cwd (host (store w2))))
    by (try apply join_absolute; assumption).
  eexists. split; reflexivity.
Qed.

Lemma copied_command_independent_of_cwd_witness :
  exists command,
    clipboard (after Extension.copyWebTestCommand checkoutWorkbench)
    = Some command
    /\ clipboard
         (after Extension.copyWebTestCommand
            (setStore
               (mkStore (this checkoutStore)
                  (mkHost "/tmp"
                     (Some "/home/dev/chromium/src/third_party/blink/web_tests/fast/dom/title.html")
                     ["an earlier message"]))
               checkoutWorkbench))
       = Some command.
Proof.
  apply (copied_command_independent_of_cwd _ _ "/home/dev/chromium"
           "/home/dev/chromium/src/third_party/blink/web_tests/fast/dom/title.html").
  - repeat split.
  - repeat split.
  - reflexivity.
  - reflexivity.
  - left. reflexivity.
Defined.

(** ** Activation in the revisions *)

Lemma activateManager_run (w : Workbench) :
  activateManager w
  = (Normal tt,
     mkWorkbench
       (mkStore
          (mkChromiumTestManager
             (Path.resolve (cwd (host (store w)))
                [match configuration w "chromium.rootDir" with
                 | Some dir => dir
                 | None => "chromium/src"
                 end])
             match configuration w "chromium.targetConfig" with
             | Some target => target
             | None => "Default"
             end)
          (mkHost (cwd (host (store w))) (activeTextEditor (host (store w)))
             (informationMessages (host (store w))
              ++ match configuration w "chromium.rootDir" with
                 | Some _ => []
                 | None => ["chromium.rootDir not configed in config.json"]
                 end
              ++ match configuration w "chromium.targetConfig" with
                 | Some _ => []
                 | None =>
                     ["chromium.targetConfig not configed in config.json"]
                 end)%list))
       true (rootPath w) (existsSync w) (configuration w) (clipboard w)
       (statusBarMessages w) (terminals w)).
Proof.
  unfold activateManager, wbind, Vscode.configurationGet, Vscode.pathResolve.
  destruct w as [[m [wd editor messages]] md rp ex cf cl sb ts].
  cbn [configuration store host cwd activeTextEditor informationMessages
       rootPath existsSync clipboard statusBarMessages terminals].
  destruct (cf "chromium.rootDir") as [dir|];
    destruct (cf "chromium.targetConfig") as [target|];
    cbn; rewrite ?app_nil_r, <- ?app_assoc; reflexivity.
Qed.

(** X8: activation in [part_001] and [part_002] always defines the
    manager: a missing setting is reported in an information message and
    replaced by ["chromium/src"], respectively ["Default"], and in a process
    with an absolute working directory the [rootDir] it stores is the
    resolved directory, which is absolute and normalized. *)
Theorem activation_resolves_rootDir (w : Workbench) :
  Path.isAbsolute (cwd (host (store w))) = true ->
  let w' := after Rev1Editor.activate w in
  let configured :=
    match configuration w "chromium.rootDir" with
    | Some dir => dir
    | None => "chromium/src"
    end in
  after Rev2Editor.activate w = w'
  /\ managerDefined w' = true
  /\ rootDir (this (store w'))
     = Path.resolve (cwd (host (store w))) [configured]
  /\ Path.isAbsolute (rootDir (this (store w'))) = true
  /\ Path.normalize (rootDir (this (store w'))) = rootDir (this (store w'))
  /\ compileTarget (this (store w'))
     = match configuration w "chromium.targetConfig" with
       | Some target => target
       | None => "Default"
       end
  /\ informationMessages (host (store w'))
     = (informationMessages (host (store w))
        ++ match configuration w "chromium.rootDir" with
           | Some _ => []
           | None => ["chromium.rootDir not configed in config.json"]
           end
        ++ match configuration w "chromium.targetConfig" with
           | Some _ => []
           | None => ["chromium.targetConfig not configed in config.json"]
           end)%list.
Proof.
  intros Hwd w' configured. subst w'.
  unfold after, Rev1Editor.activate, Rev2Editor.activate, wbind.
  rewrite activateManager_run. cbn [snd wret store this rootDir
    compileTarget managerDefined host informationMessages].
  destruct (PathBelow.resolve_absolute_normalized
              (cwd (host (store w))) configured Hwd) as (Habs & Hnorm).
  repeat split; assumption.
Qed.

Lemma activation_resolves_rootDir_witness :
  rootDir (this (store (after Rev1Editor.activate checkoutWorkbench)))
  = "/home/dev/chromium/chromium/src"
  /\ Path.normalize "/home/dev/chromium/chromium/src"
     = "/home/dev/chromium/chromium/src".
Proof.
  pose proof (activation_resolves_rootDir checkoutWorkbench eq_refl) as H.
  split.
  - exact (proj1 (proj2 (proj2 H))).
  - exact (proj1 (proj2 (proj2 (proj2 (proj2 H))))).
Defined.

(** X9: activation in [part_000] registers its command only when both
    settings are present, and then keeps the directory as configured,
    unresolved; when one is missing it registers nothing, leaves the manager
    undefined or as it was, and says which setting is missing in the status
    bar. *)
Theorem Rev0_activate_needs_settings (w : Workbench) :
  (configuration w "chromium.rootDir" = None ->
   outcome Rev0Editor.activate w = Normal []
   /\ statusBarMessages (after Rev0Editor.activate w)
      = (statusBarMessages w
         ++ [("chromium.rootDir not configed in config.json", 3000%Z)])%list
   /\ store (after Rev0Editor.activate w) = store w
   /\ managerDefined (after Rev0Editor.activate w) = managerDefined w)
  /\ (forall dir,
         configuration w "chromium.rootDir" = Some dir ->
         configuration w "chromium.targetConfig" = None ->
         outcome Rev0Editor.activate w = Normal []
         /\ statusBarMessages (after Rev0Editor.activate w)
            = (statusBarMessages w
               ++ [("chromium.targetConfig not configed in config.json",
                    3000%Z)])%list
         /\ store (after Rev0Editor.activate w) = store w
         /\ managerDefined (after Rev0Editor.activate w) = managerDefined w)
  /\ (forall dir target,
         configuration w "chromium.rootDir" = Some dir ->
         configuration w "chromium.targetConfig" = Some target ->
         outcome Rev0Editor.activate w
         = Normal [("chromium.copyWebTestCommand",
                    Rev0Editor.copyWebTestCommand)]
         /\ this (store (after Rev0Editor.activate w))
            = mkChromiumTestManager dir target
         /\ managerDefined (after Rev0Editor.activate w) = true
         /\ statusBarMessages (after Rev0Editor.activate w)
            = statusBarMessages w).
Proof.
  unfold outcome, after, Rev0Editor.activate, wbind, Vscode.configurationGet.
  split; [|split].
  - intros ->. repeat split.
  - intros dir -> ->. repeat split.
  - intros dir target -> ->. repeat split.
Qed.

Lemma Rev0_activate_needs_settings_witness :
  outcome Rev0Editor.activate checkoutWorkbench = Normal []
  /\ statusBarMessages (after Rev0Editor.activate checkoutWorkbench)
     = [("chromium.rootDir not configed in config.json", 3000%Z)].
Proof.
  pose proof (proj1 (Rev0_activate_needs_settings checkoutWorkbench) eq_refl)
    as H.
  split; [exact (proj1 H) | exact (proj1 (proj2 H))].
Defined.

(** ** The commands of the revisions *)

Lemma Rev2_getWebTestCommand_throws (st : Store) (file_path : string) :
  Rev2.getWebTestCommand file_path st
  = (Throw ("Wrong extension(" ++ Path.extname file_path
            ++ ") for web test. Expect .html or .php."), st).
Proof.
  unfold Rev2.getWebTestCommand.
  assert (H : JS.includes ["html"; "php"] (Path.extname file_path) = false)
    by (destruct (PathFacts.extname_empty_or_dot file_path)
          as [-> | (rest & ->)]; reflexivity).
  now rewrite H.
Qed.

Lemma wbind_normal {A B : Type} (m : W A) (k : A -> W B)
      (w w' : Workbench) (a : A) :
  m w = (Normal a, w') -> wbind m k w = k a w'.
Proof. intros H. unfold wbind. now rewrite H. Qed.

Lemma wbind_throw {A B : Type} (m : W A) (k : A -> W B)
      (w w' : Workbench) (e : string) :
  m w = (Throw e, w') -> wbind m k w = (Throw e, w').
Proof. intros H. unfold wbind. now rewrite H. Qed.

Lemma Rev2_copy_run (w : Workbench) :
  Rev2Editor.copyWebTestCommand w
  = liftM (Rev1.log
             ("vscode-chromium-test: "
              ++ match activeTextEditor (host (store w)) with
                 | None => "No active editor"
                 | Some file_path =>
                     "Wrong extension(" ++ Path.extname file_path
                     ++ ") for web test. Expect .html or .php."
                 end)) w.
Proof.
  unfold Rev2Editor.copyWebTestCommand, wtryCatch.
  rewrite (wbind_normal _ _ w w _
             (liftM_reads w _ _
                (getCompileCommand_run (store w) "content_shell"))).
  destruct (activeTextEditor (host (store w))) as [file_path|] eqn:Heditor.
  - rewrite (wbind_normal _ _ w w file_path).
    + rewrite (wbind_throw _ _ w w _
                 (liftM_reads w _ _
                    (Rev2_getWebTestCommand_throws (store w) file_path))).
      reflexivity.
    + apply liftM_reads. unfold Rev1.getCurrentFilePath. now rewrite Heditor.
  - rewrite (wbind_throw _ _ w w "No active editor"); [reflexivity|].
    apply liftM_reads. unfold Rev1.getCurrentFilePath. now rewrite Heditor.
Qed.

(** X10: the command of [part_002] never copies anything: on every
    workbench it returns normally and all it does is show one information
    message, ["No active editor"] or the refusal of the extension, even for
    a web test. *)
Theorem Rev2_copy_command_never_copies (w : Workbench) :
  outcome Rev2Editor.copyWebTestCommand w = Normal tt
  /\ reportsOnly
       ("vscode-chromium-test: "
        ++ match activeTextEditor (host (store w)) with
           | None => "No active editor"
           | Some file_path =>
               "Wrong extension(" ++ Path.extname file_path
               ++ ") for web test. Expect .html or .php."
           end)
       w (after Rev2Editor.copyWebTestCommand w)
  /\ this (store (after Rev2Editor.copyWebTestCommand w)) = this (store w).
Proof.
  unfold outcome, after. rewrite Rev2_copy_run. repeat split.
Qed.

Lemma Rev0_copy_run (w : Workbench) (file_path : string) :
  activeTextEditor (host (store w)) = Some file_path ->
  Rev0Editor.copyWebTestCommand w
  = Vscode.pasteToClipboard
      (("autoninja -C out/" ++ compileTarget (this (store w)) ++ " "
        ++ "content_shell")
       ++ " && "
       ++ "third_party/blink/tools/run_web_tests.py -t "
       ++ compileTarget (this (store w)) ++ " "
       ++ Path.relative (cwd (host (store w)))
            (JS.join Path.sep
               [rootDir (this (store w)); "third_party"; "blink";
                "web_tests"])
            file_path) w.
Proof.
  intros Heditor. unfold Rev0Editor.copyWebTestCommand.
  rewrite (wbind_normal _ _ w w _
             (liftM_reads w _ _
                (getCompileCommand_run (store w) "content_shell"))).
  rewrite (wbind_normal _ _ w w file_path)
    by (unfold Rev0Editor.getCurrentFilePath; now rewrite Heditor).
  now rewrite (wbind_normal _ _ w w _
                 (liftM_reads w _ _
                    (Rev0_getWebTestCommand_run (store w) file_path))).
Qed.

(** X11: the command of [part_000] checks nothing: with an active editor
    it copies a command for whatever file is open, web test or not, built
    on the directory [rootDir/third_party/blink/web_tests] as a string; with
    no active editor it throws, nothing catches it, and nothing changes. *)
Theorem Rev0_copy_command_checks_nothing (w : Workbench) :
  (forall file_path,
      activeTextEditor (host (store w)) = Some file_path ->
      outcome Rev0Editor.copyWebTestCommand w = Normal tt
      /\ clipboard (after Rev0Editor.copyWebTestCommand w)
         = Some ("autoninja -C out/" ++ compileTarget (this (store w))
                 ++ " content_shell && third_party/blink/tools/run_web_tests.py -t "
                 ++ compileTarget (this (store w)) ++ " "
                 ++ Path.relative (cwd (host (store w)))
                      (rootDir (this (store w))
                       ++ "/third_party/blink/web_tests")
                      file_path))
  /\ (activeTextEditor (host (store w)) = None ->
      (exists e, outcome Rev0Editor.copyWebTestCommand w = Throw e)
      /\ after Rev0Editor.copyWebTestCommand w = w).
Proof.
  unfold outcome, after. split.
  - intros file_path Heditor.
    rewrite (Rev0_copy_run w file_path Heditor). split; [reflexivity|].
    cbn [snd Vscode.pasteToClipboard wbind Vscode.writeText
         Vscode.setStatusBarMessage clipboard setClipboard
         setStatusBarMessages].
    now rewrite !PathFacts.append_assoc.
  - intros Heditor. unfold Rev0Editor.copyWebTestCommand.
    rewrite (wbind_normal _ _ w w _
               (liftM_reads w _ _
                  (getCompileCommand_run (store w) "content_shell"))).
    rewrite (wbind_throw _ _ w w (typeErrorOfUndefined "document")).
    + split; [eexists|]; reflexivity.
    + unfold Rev0Editor.getCurrentFilePath. now rewrite Heditor.
Qed.

Lemma Rev0_copy_command_checks_nothing_witness :
  outcome Rev0Editor.copyWebTestCommand
          (setStore
             (mkStore (this checkoutStore)
                (mkHost "/home/dev" (Some "/home/dev/notes.txt") []))
             checkoutWorkbench)
  = Normal tt.
Proof.
  exact (proj1 (proj1 (Rev0_copy_command_checks_nothing
                         (setStore
                            (mkStore (this checkoutStore)
                               (mkHost "/home/dev"
                                  (Some "/home/dev/notes.txt") []))
                            checkoutWorkbench))
                      "/home/dev/notes.txt" eq_refl)).
Defined.

Lemma Rev1_wrapped_run (k : string -> W unit) (w : Workbench) :
  Rev1Editor.wrap_exception (wbind (liftM Rev1.getTestCommand) k) w
  = match fst (getTestCommand (store w)) with
    | Normal command =>
        wtryCatch (wbind (k command) (fun _ => wret tt))
          (fun e => liftM (Rev1.log ("vscode-chromium-test: " ++ e))) w
    | Throw e => liftM (Rev1.log ("vscode-chromium-test: " ++ e)) w
    end.
Proof.
  unfold Rev1Editor.wrap_exception, wtryCatch.
  rewrite Rev1_getTestCommand_same.
  unfold wbind at 1 2.
  rewrite (liftM_reads w getTestCommand _ (getTestCommand_run w)).
  rewrite (getTestCommand_run w). cbn [fst].
  now destruct (activeTextEditor (host (store w))) as [f|];
    [destruct (result (getWebTestCommand f) (store w))|].
Qed.

(** X12: the two commands of [part_001] never throw.  With no active
    editor, or a file that is not a web test, all they do is show one
    information message that starts with ["vscode-chromium-test: "] and
    gives the reason.  With a web test below
    [rootDir/third_party/blink/web_tests] in the editor, the copy command
    puts the build-and-run command on the clipboard and the run command
    sends it to the terminal, both with the manager's own build
    configuration. *)
Theorem Rev1_commands_report_or_run (w : Workbench) :
  outcome Rev1Editor.copyWebTestCommand w = Normal tt
  /\ outcome Rev1Editor.runWebTest w = Normal tt
  /\ (activeTextEditor (host (store w)) = None ->
      reportsOnly "vscode-chromium-test: No active editor"
                  w (after Rev1Editor.copyWebTestCommand w)
      /\ reportsOnly "vscode-chromium-test: No active editor"
                     w (after Rev1Editor.runWebTest w))
  /\ (forall file_path,
         activeTextEditor (host (store w)) = Some file_path ->
         Path.extname file_path <> ".html" ->
         Path.extname file_path <> ".php" ->
         reportsOnly
           ("vscode-chromium-test: Wrong extension("
            ++ Path.extname file_path
            ++ ") for web test. Expect .html or .php.")
           w (after Rev1Editor.copyWebTestCommand w)
         /\ reportsOnly
              ("vscode-chromium-test: Wrong extension("
               ++ Path.extname file_path
               ++ ") for web test. Expect .html or .php.")
              w (after Rev1Editor.runWebTest w))
  /\ (forall names,
         let test_path := JS.join "/" names in
         let file_path :=
           rootDir (this (store w)) ++ "/third_party/blink/web_tests/"
           ++ test_path in
         let command :=
           "autoninja -C out/" ++ compileTarget (this (store w))
           ++ " content_shell && third_party/blink/tools/run_web_tests.py -t "
           ++ compileTarget (this (store w)) ++ " " ++ test_path in
         rootDir (this (store w)) <> "" ->
         names <> [] -> forallb isNameSegment names = true ->
         activeTextEditor (host (store w)) = Some file_path ->
         Path.extname file_path = ".html"
         \/ Path.extname file_path = ".php" ->
         clipboard (after Rev1Editor.copyWebTestCommand w) = Some command
         /\ terminals (after Rev1Editor.runWebTest w)
            = match terminals w with
              | [] =>
                  [mkTerminal ["cd src" ++ newline; command ++ newline] true]
              | t :: rest =>
                  mkTerminal
                    (sentText t ++ [(command ++ newline)%string])%list true
                  :: rest
              end).
Proof.
  unfold outcome, after, Rev1Editor.copyWebTestCommand, Rev1Editor.runWebTest.
  rewrite !Rev1_wrapped_run. rewrite (getTestCommand_run w). cbn [fst].
  split; [|split; [|split; [|split]]].
  - now destruct (activeTextEditor (host (store w))) as [f|];
      [destruct (result (getWebTestCommand f) (store w))|].
  - destruct (activeTextEditor (host (store w))) as [f|]; [|reflexivity].
    destruct (result (getWebTestCommand f) (store w)); [|reflexivity].
    unfold wtryCatch, wbind. now rewrite runCommand_run.
  - intros ->. repeat split.
  - intros file_path -> Hhtml Hphp. unfold result.
    rewrite getWebTestCommand_rejects
      by (apply web_test_extension_rejected; tauto).
    repeat split.
  - intros names Hroot Hn Hnames Heditor Hext.
    rewrite Heditor. unfold result.
    rewrite getWebTestCommand_accepts
      by now apply web_test_extension_accepted.
    cbn [fst]. rewrite web_test_below by assumption.
    unfold wtryCatch, wbind. rewrite runCommand_run.
    split; reflexivity.
Qed.

Lemma Rev1_commands_report_or_run_witness :
  reportsOnly "vscode-chromium-test: No active editor" emptyWorkbench
    (after Rev1Editor.copyWebTestCommand
           (setStore (mkStore (this checkoutStore) (mkHost "/" None []))
                     emptyWorkbench))
  /\ clipboard (after Rev1Editor.copyWebTestCommand checkoutWorkbench)
     = Some "autoninja -C out/Default content_shell && third_party/blink/tools/run_web_tests.py -t Default fast/dom/title.html".
Proof.
  split.
  - exact (proj1 (proj1 (proj2 (proj2 (Rev1_commands_report_or_run
             (setStore (mkStore (this checkoutStore) (mkHost "/" None []))
                       emptyWorkbench)))) eq_refl)).
  - refine (proj1 (proj2 (proj2 (proj2 (proj2 (Rev1_commands_report_or_run
              checkoutWorkbench)))) ["fast"; "dom"; "title.html"] _ _ _ _ _)).
    + discriminate.
    + discriminate.
    + reflexivity.
    + reflexivity.
    + left. reflexivity.
Defined.
